(** * The Investment Climate Index API gateway (server/index.js)

    A shallow embedding of the gateway's refresh scheduler, snapshot
    cache, auth gate, alert subscription and billing webhook, and the
    properties the specification states about them.

    JavaScript values are an inductive type; the cache is a record with
    the three fields of the [CACHE] object; the two refresh functions are
    cache transformers that receive what [fetch] settled with; request
    handlers run in a small state-and-exception monad over the key store,
    the alert table and a log of the calls made to collaborators. *)

From Stdlib Require Import List String Ascii Bool Arith NArith Lia QArith DecimalString.
Import ListNotations.
Local Open Scope string_scope.
Local Open Scope list_scope.
Local Open Scope nat_scope.

Set Implicit Arguments.
Set Warnings "-register-all".

(** ** JavaScript values *)

(** The values the server handles: what [JSON.parse] produces, plus
    [undefined].  An array carries the named properties assigned to it
    besides its elements (JSON arrays start with none).  Numbers are
    rationals: the server never computes with them, it tests them for
    truthiness and passes them on.  A string is held in UTF-8 and read
    by UTF-16 code unit (see [code_units]).  An object is an association
    list in insertion order. *)
Inductive value : Type :=
| VUndefined
| VNull
| VBool (b : bool)
| VNum (q : Q)
| VStr (s : string)
| VArr (items : list value) (named : list (string * value))
| VObj (props : list (string * value)).

(** What a JavaScript [throw] carries. *)
Inductive error : Type :=
| NetworkFailure                 (* fetch() rejected *)
| FetchFailed (status : nat)     (* fetchJson: `Fetch failed ${res.status}` *)
| SyntaxErr                      (* res.json() on a body that is not JSON *)
| TypeErr                        (* property access on null/undefined, assignment to a primitive *)
| LibraryError (message : string).

Inductive result (A : Type) : Type :=
| Ok (a : A)
| Throw (e : error).
Arguments Ok {A} a.
Arguments Throw {A} e.

Definition rbind {A B} (r : result A) (k : A -> result B) : result B :=
  match r with
  | Ok a => k a
  | Throw e => Throw e
  end.

Declare Scope result_scope.
Delimit Scope result_scope with result.
Notation "x <- r ;; k" := (rbind r (fun x => k))
  (at level 61, r at next level, right associativity) : result_scope.

(** Association lists: objects keep their keys in insertion order. *)
Fixpoint assoc_get {A} (k : string) (l : list (string * A)) : option A :=
  match l with
  | [] => None
  | (k', v) :: t => if String.eqb k' k then Some v else assoc_get k t
  end.

Fixpoint assoc_set {A} (k : string) (v : A) (l : list (string * A)) : list (string * A) :=
  match l with
  | [] => [(k, v)]
  | (k', v') :: t => if String.eqb k' k then (k, v) :: t else (k', v') :: assoc_set k v t
  end.

(** The property name of array index [n]. *)
Definition index_key (n : nat) : string := NilEmpty.string_of_uint (Nat.to_uint n).

Fixpoint indexed (start : nat) (l : list value) : list (string * value) :=
  match l with
  | [] => []
  | v :: t => (index_key start, v) :: indexed (S start) t
  end.

(** *** Strings as sequences of UTF-16 code units

    A [string] holds a JavaScript string in UTF-8, a lone surrogate in
    its three-byte form.  JavaScript indexes and measures a string by
    UTF-16 code unit: one unit per code point up to U+FFFF, a surrogate
    pair for a code point above. *)

(** A continuation byte, [10xxxxxx]. *)
Definition is_continuation (c : ascii) : bool :=
  let n := N_of_ascii c in
  N.leb 128 n && N.ltb n 192.

(** The bytes grouped per code point, each lead byte with the
    continuation bytes after it; first the continuation bytes that come
    before any lead byte. *)
Fixpoint group_bytes (s : list ascii) : list ascii * list (list ascii) :=
  match s with
  | [] => ([], [])
  | c :: t =>
      let (pend, gs) := group_bytes t in
      if is_continuation c then (c :: pend, gs) else ([], (c :: pend) :: gs)
  end.

(** The three-byte form of one code unit from U+0800 on (a surrogate). *)
Definition encode_unit (u : N) : list ascii :=
  [ascii_of_N (N.lor 224 (N.shiftr u 12));
   ascii_of_N (N.lor 128 (N.land (N.shiftr u 6) 63));
   ascii_of_N (N.lor 128 (N.land u 63))].

(** The code units of one code point: a four-byte sequence is a code
    point above U+FFFF and gives its two surrogates, any other is one unit. *)
Definition units_of_group (g : list ascii) : list (list ascii) :=
  match g with
  | [b0; b1; b2; b3] =>
      if N.leb 240 (N_of_ascii b0) then
        let cp := N.lor (N.shiftl (N.land (N_of_ascii b0) 7) 18)
                    (N.lor (N.shiftl (N.land (N_of_ascii b1) 63) 12)
                       (N.lor (N.shiftl (N.land (N_of_ascii b2) 63) 6)
                              (N.land (N_of_ascii b3) 63))) in
        let v := N.sub cp 65536 in
        [encode_unit (N.add 55296 (N.shiftr v 10));
         encode_unit (N.add 56320 (N.land v 1023))]
      else [g]
  | _ => [g]
  end.

(** The string cut into its code units, each as a string of its own. *)
Definition code_units (s : string) : list string :=
  let (pend, gs) := group_bytes (list_ascii_of_string s) in
  map string_of_list_ascii
      (match pend with
       | [] => []
       | _ => [pend]
       end ++ flat_map units_of_group gs).

(** [s[0]], [s[1]], ...: one one-unit string per code unit. *)
Definition chars (s : string) : list value := map VStr (code_units s).

(** The own enumerable properties of a value, as object spread copies them. *)
Definition own_props (v : value) : list (string * value) :=
  match v with
  | VObj props => props
  | VArr items named => indexed 0 items ++ named
  | VStr s => indexed 0 (chars s)
  | _ => []
  end.

Definition num_of_nat (n : nat) : value := VNum (inject_Z (Z.of_nat n)).

(** [v.k]: a [TypeError] on [null] and [undefined], [undefined] for a
    property that is not there.  Members inherited from the built-in
    prototypes are not represented; the server reads data properties only. *)
Definition get_prop (k : string) (v : value) : result value :=
  match v with
  | VUndefined | VNull => Throw TypeErr
  | VStr s =>
      if String.eqb k "length" then Ok (num_of_nat (List.length (code_units s)))
      else Ok (match assoc_get k (own_props v) with Some x => x | None => VUndefined end)
  | VArr items _ =>
      if String.eqb k "length" then Ok (num_of_nat (List.length items))
      else Ok (match assoc_get k (own_props v) with Some x => x | None => VUndefined end)
  | _ => Ok (match assoc_get k (own_props v) with Some x => x | None => VUndefined end)
  end.

(** [target.markets = v] in module (strict-mode) code: objects and arrays
    take the property, anything else raises a [TypeError]. *)
Definition assign_markets (v : value) (target : value) : result value :=
  match target with
  | VObj props => Ok (VObj (assoc_set "markets" v props))
  | VArr items named => Ok (VArr items (assoc_set "markets" v named))
  | _ => Throw TypeErr
  end.

(** JavaScript truthiness: [!v] is [negb (truthy v)]. *)
Definition truthy (v : value) : bool :=
  match v with
  | VUndefined | VNull => false
  | VBool b => b
  | VNum q => negb (Qeq_bool q 0)
  | VStr s => negb (String.eqb s "")
  | VArr _ _ | VObj _ => true
  end.

(** [a || b] *)
Definition js_or (a b : value) : value := if truthy a then a else b.

(** [v === s] for a string literal [s]. *)
Definition is_string (s : string) (v : value) : bool :=
  match v with
  | VStr s' => String.eqb s' s
  | _ => false
  end.

(** ** What [fetch] settles with *)

Record http_response : Type := {
  status : nat;
  json_body : option value;   (* what res.json() resolves to; None when the body is not JSON *)
  text_body : string          (* what res.text() resolves to *)
}.

Inductive fetched : Type :=
| Rejected                    (* network error: the promise rejects *)
| Resolved (res : http_response).

(** [res.ok] *)
Definition res_ok (res : http_response) : bool :=
  (200 <=? status res) && (status res <=? 299).

Definition fetchJson (f : fetched) : result value :=
  match f with
  | Rejected => Throw NetworkFailure
  | Resolved res =>
      if res_ok res then
        match json_body res with
        | Some v => Ok v
        | None => Throw SyntaxErr
        end
      else Throw (FetchFailed (status res))
  end.

(** ** The snapshot cache *)

Record cache : Type := {
  data : value;
  dataUpdatedAt : option string;
  marketsUpdatedAt : option string
}.

(** [const CACHE = { data: null, dataUpdatedAt: null, marketsUpdatedAt: null }] *)
Definition CACHE0 : cache :=
  {| data := VNull; dataUpdatedAt := None; marketsUpdatedAt := None |}.

(** The handlers' readiness test, [!CACHE.data], negated. *)
Definition ready (C : cache) : bool := truthy (data C).

(** [refreshBaseData], from the point where [await fetchJson(...)] settles
    with [f]; [now] is [new Date().toISOString()].  The function reads
    nothing of the cache before the await, so its whole effect is this
    step on the cache as it is when the call resumes. *)
Definition refreshBaseData (f : fetched) (now : string) (C : cache) : cache :=
  match fetchJson f with
  | Ok payload =>
      {| data := payload;
         dataUpdatedAt := Some now;
         marketsUpdatedAt := marketsUpdatedAt C |}
  | Throw _ => C   (* keep last cache *)
  end.

(** ** The market fetchers *)

Definition BTC_URL : string :=
  "https://api.coingecko.com/api/v3/simple/price?ids=bitcoin&vs_currencies=usd&include_market_cap=true".
Definition GOLD_URL : string := "https://api.gold-api.com/price/XAU".
Definition SPX_URL : string := "https://stooq.com/q/l/?s=^spx&f=sd2t2ohlcv&h&e=csv".

Definition fetchBtcMarket (f : fetched) : result value :=
  (data <- fetchJson f ;;
   bitcoin <- get_prop "bitcoin" data ;;
   let btc := js_or bitcoin (VObj []) in
   usd <- get_prop "usd" btc ;;
   cap <- get_prop "usd_market_cap" btc ;;
   Ok (VObj [("price", js_or usd VNull); ("marketCap", js_or cap VNull)]))%result.

Definition fetchGoldMarket (f : fetched) : result value :=
  (data <- fetchJson f ;;
   price <- get_prop "price" data ;;
   Ok (VObj [("price", js_or price VNull);
             ("marketCap", VNull);
             ("marketCapEstimate", VBool true)]))%result.

(** [s.split(sep)] for a one-character separator: never empty. *)
Fixpoint split_on (sep : ascii) (s : string) : list string :=
  match s with
  | EmptyString => [EmptyString]
  | String c t =>
      if Ascii.eqb c sep then EmptyString :: split_on sep t
      else match split_on sep t with
           | h :: r => String c h :: r
           | [] => [String c EmptyString]
           end
  end.

Definition newline : ascii := "010"%char.
Definition comma : ascii := ","%char.

Section Markets.

(** Two built-ins of the language, taken as they are: [String.prototype.trim],
    and [Number(s)] on a string, as [Some q] when the result passes
    [Number.isFinite] and [None] when it is [NaN] or infinite. *)
Variable js_trim : string -> string.
Variable Number_finite : string -> option Q.

(** [fetchSpx]: no [res.ok] test, so any response is read as CSV. *)
Definition fetchSpx (f : fetched) : result value :=
  match f with
  | Rejected => Throw NetworkFailure
  | Resolved res =>
      let lines := split_on newline (js_trim (text_body res)) in
      if 2 <=? List.length lines then
        let parts := split_on comma (nth 1 lines EmptyString) in
        match nth_error parts 6 with
        | Some field =>
            match Number_finite field with
            | Some close => Ok (VNum close)
            | None => Ok VNull
            end
        | None => Ok VNull      (* Number(undefined) is NaN *)
        end
      else Ok VNull
  end.

Definition fetchSp500Market (f : fetched) : result value :=
  let spxPrice := match fetchSpx f with
                  | Ok v => v
                  | Throw _ => VNull
                  end in
  Ok (VObj [("price", spxPrice); ("marketCap", VNull); ("marketCapProxy", VStr "SPY")]).

(** [Promise.all] of the three fetchers: fulfilled with the three
    results when all are, rejected otherwise (the reason is dropped by
    the caller's empty [catch]). *)
Definition Promise_all (a b c : result value) : result (value * value * value) :=
  (x <- a ;;
   y <- b ;;
   z <- c ;;
   Ok (x, y, z))%result.

(** [refreshMarkets] up to its [await]: [None] when it returns at the
    guard [if (!CACHE.data) return], else the requests it issues. *)
Definition refreshMarkets_start (C : cache) : option (list string) :=
  if negb (truthy (data C)) then None
  else Some [BTC_URL; GOLD_URL; SPX_URL].

(** [refreshMarkets] from the point where [Promise.all] settles, on the
    cache as it is then. *)
Definition refreshMarkets_settle (btc gold spx : fetched) (now : string) (C : cache) : cache :=
  match Promise_all (fetchBtcMarket btc) (fetchGoldMarket gold) (fetchSp500Market spx) with
  | Ok (b, g, s) =>
      match assign_markets (VObj [("btc", b); ("gold", g); ("sp500", s)]) (data C) with
      | Ok d =>
          {| data := d;
             dataUpdatedAt := dataUpdatedAt C;
             marketsUpdatedAt := Some now |}
      | Throw _ => C   (* keep last markets *)
      end
  | Throw _ => C       (* keep last markets *)
  end.

(** One whole tick of [refreshMarkets] with nothing else resuming
    between its guard and its write. *)
Definition refreshMarkets (btc gold spx : fetched) (now : string) (C : cache) : cache :=
  match refreshMarkets_start C with
  | None => C
  | Some _ => refreshMarkets_settle btc gold spx now C
  end.

(** *** The scheduler

    [setInterval] starts the two refreshers; each resumes later, when
    its fetches settle.  The server state is the cache and the number
    of [refreshMarkets] calls waiting at their [await]. *)
Record server : Type := {
  CACHE : cache;
  pending : nat
}.

Inductive event : Type :=
| BaseSettled (f : fetched) (now : string)
| MarketsFired
| MarketsSettled (btc gold spx : fetched) (now : string).

Definition step (s : server) (ev : event) : server :=
  match ev with
  | BaseSettled f now =>
      {| CACHE := refreshBaseData f now (CACHE s); pending := pending s |}
  | MarketsFired =>
      match refreshMarkets_start (CACHE s) with
      | None => s
      | Some _ => {| CACHE := CACHE s; pending := S (pending s) |}
      end
  | MarketsSettled btc gold spx now =>
      match pending s with
      | O => s      (* nothing is waiting: no such event happens *)
      | S n => {| CACHE := refreshMarkets_settle btc gold spx now (CACHE s); pending := n |}
      end
  end.

Definition run (evs : list event) (s : server) : server := fold_left step evs s.

(** The process starts with an empty cache and nothing waiting. *)
Definition boot : server := {| CACHE := CACHE0; pending := 0 |}.

End Markets.

(** ** Requests and responses *)

Record request : Type := {
  authorization : option string;   (* req.headers.authorization *)
  stripe_signature : value;        (* req.headers['stripe-signature'] *)
  body : value;                    (* req.body, as express.json() left it *)
  rawBody : option string          (* req.rawBody, set by the json parser's verify hook *)
}.

Inductive sent : Type :=
| Json (v : value)                 (* res.json(v) *)
| Text (s : string).               (* res.send(s) *)

Record response : Type := {
  code : nat;
  content : sent
}.

Definition json_error (c : nat) (msg : string) : response :=
  {| code := c; content := Json (VObj [("error", VStr msg)]) |}.

Definition opt_str (o : option string) : value :=
  match o with
  | Some s => VStr s
  | None => VNull
  end.

(** [s.slice(n)] *)
Fixpoint slice (n : nat) (s : string) : string :=
  match n, s with
  | O, _ => s
  | S n', String _ t => slice n' t
  | S _, EmptyString => EmptyString
  end.

(** ** The key store and the alert table *)

Module Key.
Record record : Type := {
  id : value;
  key_hash : string;
  plan : value;
  status : value;
  email : value;
  stripe_customer_id : value;
  stripe_subscription_id : value
}.

Definition with_id (i : value) (r : record) : record :=
  {| id := i; key_hash := key_hash r; plan := plan r; status := status r;
     email := email r; stripe_customer_id := stripe_customer_id r;
     stripe_subscription_id := stripe_subscription_id r |}.

Definition with_status (s : value) (r : record) : record :=
  {| id := id r; key_hash := key_hash r; plan := plan r; status := s;
     email := email r; stripe_customer_id := stripe_customer_id r;
     stripe_subscription_id := stripe_subscription_id r |}.
End Key.

Module Alert.
Record record : Type := {
  api_key_id : value;
  email : value;
  telegram_chat_id : value
}.
End Alert.

(** An outbound [fetch(url, { method: 'POST', headers, body: JSON.stringify(o) })];
    [posted] is [o], the object before serialisation. *)
Record post : Type := {
  url : value;
  posted : value
}.

(** The calls a handler makes to its collaborators, in order. *)
Inductive call : Type :=
| Call_hashKey (token : string)
| Call_getKeyByHash (h : string)
| Call_generateKey
| Call_insertKey (r : Key.record)
| Call_updateKeySubscription (customer subscription : value) (status : value)
| Call_addAlert (a : Alert.record)
| Call_fetch (p : post).

Record world : Type := {
  keys : list Key.record;
  alerts : list Alert.record;
  calls : list call
}.

(** Handlers: state over [world], with JavaScript exceptions. *)
Definition M (A : Type) : Type := world -> result A * world.

Definition ret {A} (a : A) : M A := fun w => (Ok a, w).

Definition bind {A B} (m : M A) (k : A -> M B) : M B :=
  fun w =>
    match m w with
    | (Ok a, w') => k a w'
    | (Throw e, w') => (Throw e, w')
    end.

Definition lift {A} (r : result A) : M A := fun w => (r, w).

Definition log (c : call) : M unit :=
  fun w => (Ok tt, {| keys := keys w; alerts := alerts w; calls := calls w ++ [c] |}).

Declare Scope handler_scope.
Delimit Scope handler_scope with handler.
Notation "x <- m ;; k" := (bind m (fun x => k))
  (at level 61, m at next level, right associativity) : handler_scope.
Notation "m ;;; k" := (bind m (fun _ => k))
  (at level 61, right associativity) : handler_scope.

Inductive gate : Type :=
| Reject (r : response)           (* the middleware answered; next() is not called *)
| Proceed (apiKey : Key.record).  (* req.apiKey = record; next() *)

Record environment : Type := {
  STRIPE_WEBHOOK_SECRET : value;
  MAILER_URL : value
}.

(** The store's comparison of a stored identifier with a given one. *)
Definition same_id (stored given : value) : bool :=
  match stored, given with
  | VStr a, VStr b => String.eqb a b
  | _, _ => false
  end.

(** Modelled from the spec: db.js is not among the sources.  Section 4.4:
    [lookupByHash(hash) -> Record | None], a point lookup. *)
Definition lookupByHash (h : string) (ks : list Key.record) : option Key.record :=
  find (fun r => String.eqb (Key.key_hash r) h) ks.

Section Gateway.

(** [hashKey] of utils.js: a deterministic function of the token. *)
Variable hashKey : string -> string.
(** The row id the store gives to the next inserted key. *)
Variable fresh_id : list Key.record -> value.
(** [stripe.webhooks.constructEvent(rawBody, signature, secret)]:
    the event, or the message of the error it throws. *)
Variable constructEvent : option string -> value -> value -> string + value.
(** [process.env] *)
Variable env : environment.

Definition call_hashKey (token : string) : M string :=
  (log (Call_hashKey token) ;;; ret (hashKey token))%handler.

(** [generateKey()] of utils.js; [secret] is the key it returns this time. *)
Definition generateKey (secret : string) : M string :=
  (log Call_generateKey ;;; ret secret)%handler.

(** Modelled from the spec: db.js is not among the sources.  Section 4.4
    gives the store's contract: a point lookup by hash, an insert, and a
    status update matched on the customer and subscription identifiers
    together, which changes nothing when no record matches.  Section 3
    makes the alert table purely additive. *)
Definition getKeyByHash (h : string) : M (option Key.record) :=
  (log (Call_getKeyByHash h) ;;;
   fun w => (Ok (lookupByHash h (keys w)), w))%handler.

Definition insertKey (r : Key.record) : M unit :=
  (log (Call_insertKey r) ;;;
   fun w => (Ok tt, {| keys := keys w ++ [Key.with_id (fresh_id (keys w)) r];
                       alerts := alerts w;
                       calls := calls w |}))%handler.

Definition updateKeySubscription (customer subscription status : value) : M unit :=
  (log (Call_updateKeySubscription customer subscription status) ;;;
   fun w => (Ok tt,
             {| keys := map (fun r =>
                               if same_id (Key.stripe_customer_id r) customer
                                  && same_id (Key.stripe_subscription_id r) subscription
                               then Key.with_status status r else r) (keys w);
                alerts := alerts w;
                calls := calls w |}))%handler.

Definition addAlert (a : Alert.record) : M unit :=
  (log (Call_addAlert a) ;;;
   fun w => (Ok tt, {| keys := keys w; alerts := alerts w ++ [a]; calls := calls w |}))%handler.

(** [auth.startsWith('Bearer ') ? auth.slice(7) : null], with
    [auth = req.headers.authorization || '']. *)
Definition token_of (req : request) : option string :=
  let auth := match authorization req with
              | Some a => a
              | None => ""
              end in
  if prefix "Bearer " auth then Some (slice 7 auth) else None.

(** [!token] *)
Definition no_token (token : option string) : bool :=
  match token with
  | None => true
  | Some t => String.eqb t ""
  end.

Definition requireKey (req : request) : M gate :=
  let token := token_of req in
  if no_token token then ret (Reject (json_error 401 "Missing API key"))
  else
    let t := match token with
             | Some t => t
             | None => ""
             end in
    (h <- call_hashKey t ;;
     record <- getKeyByHash h ;;
     match record with
     | Some r =>
         if negb (is_string "active" (Key.status r))
         then ret (Reject (json_error 403 "Invalid API key"))
         else ret (Proceed r)
     | None => ret (Reject (json_error 403 "Invalid API key"))
     end)%handler.

(** [app.METHOD(path, requireKey, handler)]: the handler runs when the
    middleware calls [next()], and only then. *)
Definition behind (mw : request -> M gate)
           (handler : Key.record -> request -> M response) (req : request) : M response :=
  (g <- mw req ;;
   match g with
   | Reject r => ret r
   | Proceed apiKey => handler apiKey req
   end)%handler.

(** The handler of [POST /v1/alerts/subscribe]. *)
Definition alerts_subscribe (apiKey : Key.record) (req : request) : M response :=
  let b := js_or (body req) (VObj []) in
  (email <- lift (get_prop "email" b) ;;
   telegramChatId <- lift (get_prop "telegramChatId" b) ;;
   if negb (truthy email) && negb (truthy telegramChatId)
   then ret (json_error 400 "Provide email or telegramChatId")
   else
     addAlert {| Alert.api_key_id := Key.id apiKey;
                 Alert.email := email;
                 Alert.telegram_chat_id := js_or telegramChatId VNull |} ;;;
     ret {| code := 200; content := Json (VObj [("ok", VBool true)]) |})%handler.

Definition post_alerts_subscribe : request -> M response :=
  behind requireKey alerts_subscribe.

(** The mail the webhook posts to [MAILER_URL]. *)
Definition key_mail (to : value) (key : string) : post :=
  {| url := MAILER_URL env;
     posted := VObj [("to", to);
                     ("subject", VStr "Your ICI.ndex API key");
                     ("html", VStr ("<p>Your API key: <strong>" ++ key
                                    ++ "</strong></p><p>Keep it safe.</p>"))] |}.

(** [await fetch(url, { method: 'POST', ... })]: rejects on a network
    error, and resolves whatever the status. *)
Definition fetch_post (p : post) (f : fetched) : M unit :=
  (log (Call_fetch p) ;;;
   lift (match f with
         | Rejected => Throw NetworkFailure
         | Resolved _ => Ok tt
         end))%handler.

Definition received : response :=
  {| code := 200; content := Json (VObj [("received", VBool true)]) |}.

(** The handler of [POST /v1/webhook].  [secret] is what [generateKey()]
    returns if it is called, [mail] what the mailer request settles with
    if it is sent.  A [Throw] is the handler's promise rejecting: it has
    sent no response. *)
Definition webhook (req : request) (secret : string) (mail : fetched) : M response :=
  match constructEvent (rawBody req) (stripe_signature req) (STRIPE_WEBHOOK_SECRET env) with
  | inl message => ret {| code := 400; content := Text ("Webhook Error: " ++ message) |}
  | inr event =>
      (event_type <- lift (get_prop "type" event) ;;
       (if is_string "checkout.session.completed" event_type then
          event_data <- lift (get_prop "data" event) ;;
          session <- lift (get_prop "object" event_data) ;;
          key <- generateKey secret ;;
          key_hash <- call_hashKey key ;;
          customer_email <- lift (get_prop "customer_email" session) ;;
          customer <- lift (get_prop "customer" session) ;;
          subscription <- lift (get_prop "subscription" session) ;;
          insertKey {| Key.id := VUndefined;
                       Key.key_hash := key_hash;
                       Key.plan := VStr "pro";
                       Key.status := VStr "active";
                       Key.email := js_or customer_email VNull;
                       Key.stripe_customer_id := js_or customer VNull;
                       Key.stripe_subscription_id := js_or subscription VNull |} ;;;
          (if truthy customer_email && truthy (MAILER_URL env)
           then fetch_post (key_mail customer_email key) mail
           else ret tt)
        else ret tt) ;;;
       (if is_string "customer.subscription.deleted" event_type then
          event_data <- lift (get_prop "data" event) ;;
          subscription <- lift (get_prop "object" event_data) ;;
          customer <- lift (get_prop "customer" subscription) ;;
          sub_id <- lift (get_prop "id" subscription) ;;
          updateKeySubscription customer sub_id (VStr "inactive")
        else ret tt) ;;;
       ret received)%handler
  end.

End Gateway.

Section PublicIndex.

(** [signalFromScore] of utils.js. *)
Variable signalFromScore : value -> value.

(** The handler of [GET /public/index]; the body is the object handed
    to [res.json]. *)
Definition public_index (C : cache) : result response :=
  if negb (truthy (data C)) then Ok (json_error 503 "Index not ready")
  else
    (score <- get_prop "score" (data C) ;;
     Ok {| code := 200;
           content :=
             Json (VObj
               (assoc_set "marketsUpdatedAt" (opt_str (marketsUpdatedAt C))
                 (assoc_set "dataUpdatedAt" (opt_str (dataUpdatedAt C))
                   (assoc_set "signal" (signalFromScore (js_or score (VNum 0)))
                     (own_props (data C)))))) |})%result.

End PublicIndex.

(** ** The read routes and the checkout route *)

(** The handler of [GET /health]. *)
Definition health : response :=
  {| code := 200; content := Json (VObj [("ok", VBool true)]) |}.

Section ReadRoutes.

Variable hashKey : string -> string.
(** [signalFromScore] and [whatChanged] of utils.js. *)
Variable signalFromScore : value -> value.
Variable whatChanged : value -> value.

(** The handlers below read [CACHE.data] once, into [payload], and answer
    in the same turn; [C] is the cache at that moment.  Each body is the
    object handed to [res.json]. *)
Definition v1_index (C : cache) (apiKey : Key.record) (req : request) : M response :=
  let payload := data C in
  if negb (truthy payload) then ret (json_error 503 "Index not ready")
  else
    (score <- lift (get_prop "score" payload) ;;
     let signal := signalFromScore (js_or score (VNum 0)) in
     updatedAt <- lift (get_prop "updatedAt" payload) ;;
     dca <- lift (get_prop "dca" payload) ;;
     drivers <- lift (get_prop "drivers" payload) ;;
     markets <- lift (get_prop "markets" payload) ;;
     ret {| code := 200;
            content := Json (VObj [("version", VStr "v1");
                                   ("updatedAt", updatedAt);
                                   ("score", score);
                                   ("signal", signal);
                                   ("dca", dca);
                                   ("whatChanged", whatChanged payload);
                                   ("drivers", drivers);
                                   ("markets", markets)]) |})%handler.

Definition v1_history (C : cache) (apiKey : Key.record) (req : request) : M response :=
  let payload := data C in
  if negb (truthy payload) then ret (json_error 503 "Index not ready")
  else
    (history <- lift (get_prop "history" payload) ;;
     dcaHistory <- lift (get_prop "dcaHistory" payload) ;;
     ret {| code := 200;
            content := Json (VObj [("version", VStr "v1");
                                   ("history", history);
                                   ("dcaHistory", dcaHistory)]) |})%handler.

Definition v1_markets (C : cache) (apiKey : Key.record) (req : request) : M response :=
  let payload := data C in
  if negb (truthy payload) then ret (json_error 503 "Index not ready")
  else
    (markets <- lift (get_prop "markets" payload) ;;
     ret {| code := 200;
            content := Json (VObj [("version", VStr "v1"); ("markets", markets)]) |})%handler.

Definition v1_drivers (C : cache) (apiKey : Key.record) (req : request) : M response :=
  let payload := data C in
  if negb (truthy payload) then ret (json_error 503 "Index not ready")
  else
    (drivers <- lift (get_prop "drivers" payload) ;;
     ret {| code := 200;
            content := Json (VObj [("version", VStr "v1");
                                   ("drivers", drivers);
                                   ("whatChanged", whatChanged payload)]) |})%handler.

(** The handler of [GET /v1/key/verify]. *)
Definition key_verify (apiKey : Key.record) (req : request) : M response :=
  ret {| code := 200;
         content := Json (VObj [("status", Key.status apiKey);
                                ("plan", Key.plan apiKey);
                                ("email", Key.email apiKey)]) |}.

Definition get_v1_index (C : cache) : request -> M response :=
  behind (requireKey hashKey) (v1_index C).
Definition get_v1_history (C : cache) : request -> M response :=
  behind (requireKey hashKey) (v1_history C).
Definition get_v1_markets (C : cache) : request -> M response :=
  behind (requireKey hashKey) (v1_markets C).
Definition get_v1_drivers (C : cache) : request -> M response :=
  behind (requireKey hashKey) (v1_drivers C).
Definition get_v1_key_verify : request -> M response :=
  behind (requireKey hashKey) key_verify.

End ReadRoutes.

(** The part of [process.env] that [POST /v1/checkout] reads. *)
Record checkout_environment : Type := {
  STRIPE_PRICE_ID : option string;
  PUBLIC_BASE_URL : option string
}.

(** [!process.env.X] for an environment variable: unset or empty. *)
Definition env_unset (o : option string) : bool :=
  match o with
  | None => true
  | Some v => String.eqb v ""
  end.

(** [process.env.X] as a value. *)
Definition env_value (o : option string) : value :=
  match o with
  | Some v => VStr v
  | None => VUndefined
  end.

(** [`${process.env.X}`] *)
Definition interpolate (o : option string) : string :=
  match o with
  | Some v => v
  | None => "undefined"
  end.

Section Checkout.

Variable cenv : checkout_environment.
(** [stripe.checkout.sessions.create(params)], once awaited: the session,
    or the error the call rejects with. *)
Variable sessions_create : value -> result value.

(** The parameters the handler passes to Stripe. *)
Definition checkout_params (email : value) : value :=
  VObj [("mode", VStr "subscription");
        ("customer_email", email);
        ("line_items",
         VArr [VObj [("price", env_value (STRIPE_PRICE_ID cenv)); ("quantity", VNum 1)]] []);
        ("success_url",
         VStr (interpolate (PUBLIC_BASE_URL cenv) ++ "/api-keys.html?status=success"));
        ("cancel_url",
         VStr (interpolate (PUBLIC_BASE_URL cenv) ++ "/api-keys.html?status=cancel"))].

(** The handler of [POST /v1/checkout]: what it answers (a [Throw] is the
    handler's promise rejecting, no response sent), and the parameter
    objects it called Stripe with. *)
Definition checkout (req : request) : result response * list value :=
  match get_prop "email" (js_or (body req) (VObj [])) with
  | Throw e => (Throw e, [])
  | Ok email =>
      if env_unset (STRIPE_PRICE_ID cenv)
      then (Ok (json_error 500 "Missing Stripe price id"), [])
      else
        (( session <- sessions_create (checkout_params email) ;;
           session_url <- get_prop "url" session ;;
           Ok {| code := 200; content := Json (VObj [("url", session_url)]) |} )%result,
         [checkout_params email])
  end.

End Checkout.

(** ** Vocabulary of the statements *)

(** A provider fetch that failed: a network error, or a status outside 200..299. *)
Definition failed (f : fetched) : bool :=
  match f with
  | Rejected => true
  | Resolved res => negb (res_ok res)
  end.

(** The event is not a base refresh that parsed a falsy payload
    ([null], [false], [0] or the empty string). *)
Definition base_payload_truthy (ev : event) : bool :=
  match ev with
  | BaseSettled f _ =>
      match fetchJson f with
      | Ok payload => truthy payload
      | Throw _ => true
      end
  | _ => true
  end.

(** The world after the calls [cs] were made and neither table changed. *)
Definition logged (cs : list call) (w : world) : world :=
  {| keys := keys w; alerts := alerts w; calls := calls w ++ cs |}.

(** A stand-in for [hashKey] in worked examples. *)
Definition sample_hash (t : string) : string := ("sha256:" ++ t)%string.

(** A stand-in for Stripe's verification in worked examples: one
    signature is good and yields [event], any other is refused. *)
Definition sample_constructEvent (event : value)
  : option string -> value -> value -> string + value :=
  fun _ signature _ =>
    if is_string "t=1,v1=good" signature then inr event
    else inl "No signatures found matching the expected signature for payload".

Definition sample_env : environment :=
  {| STRIPE_WEBHOOK_SECRET := VStr "whsec_1";
     MAILER_URL := VStr "https://mailer.example/send" |}.

(** A [checkout.session.completed] event for customer [a@b.com]. *)
Definition sample_checkout : value :=
  VObj [("id", VStr "evt_1");
        ("type", VStr "checkout.session.completed");
        ("data", VObj [("object", VObj [("customer_email", VStr "a@b.com");
                                        ("customer", VStr "cus_1");
                                        ("subscription", VStr "sub_1")])])].

Definition sample_webhook_request : request :=
  {| authorization := None;
     stripe_signature := VStr "t=1,v1=good";
     body := sample_checkout;
     rawBody := Some "{...}" |}.

(** Row ids counted from 1, for worked examples. *)
Definition sample_fresh_id (ks : list Key.record) : value :=
  num_of_nat (S (List.length ks)).

(** A [customer.subscription.deleted] event. *)
Definition sample_cancellation : value :=
  VObj [("id", VStr "evt_2");
        ("type", VStr "customer.subscription.deleted");
        ("data", VObj [("object", VObj [("id", VStr "sub_9");
                                        ("customer", VStr "cus_9")])])].

(** An event of a type the handler has no branch for. *)
Definition sample_invoice_paid : value :=
  VObj [("id", VStr "evt_3"); ("type", VStr "invoice.paid")].

Definition empty_world : world := {| keys := []; alerts := []; calls := [] |}.

(** A response with status 200 whose body parses to [v]. *)
Definition ok_json (v : value) : fetched :=
  Resolved {| status := 200; json_body := Some v; text_body := "" |}.


(** A JSON primitive other than [null]. *)
Definition primitive (v : value) : bool :=
  match v with
  | VBool _ | VNum _ | VStr _ => true
  | _ => false
  end.

(** What [x || null] can be: [null], or a truthy value. *)
Definition null_or_truthy (v : value) : bool :=
  match v with
  | VNull => true
  | _ => truthy v
  end.

(** [null], or a number. *)
Definition null_or_number (v : value) : bool :=
  match v with
  | VNull | VNum _ => true
  | _ => false
  end.

(** The event is a base refresh whose fetch failed, or a market event. *)
Definition base_not_fetched (ev : event) : bool :=
  match ev with
  | BaseSettled f _ =>
      match fetchJson f with
      | Ok _ => false
      | Throw _ => true
      end
  | _ => true
  end.

(** How often [c] occurs in [s]. *)
Fixpoint count_char (c : ascii) (s : string) : nat :=
  match s with
  | EmptyString => 0
  | String a t => (if Ascii.eqb a c then 1 else 0) + count_char c t
  end.

(** A request that carries nothing but an Authorization header. *)
Definition with_authorization (a : string) : request :=
  {| authorization := Some a; stripe_signature := VUndefined;
     body := VUndefined; rawBody := None |}.

(** The three quotes, as [refreshMarkets] assembles them. *)
Definition quotes (b g s : value) : value :=
  VObj [("btc", b); ("gold", g); ("sp500", s)].

(** An active key and a store holding it, for worked examples. *)
Definition sample_key : Key.record :=
  {| Key.id := VNum (1 # 1); Key.key_hash := "sha256:ici_live_abc";
     Key.plan := VStr "pro"; Key.status := VStr "active";
     Key.email := VStr "a@b.com";
     Key.stripe_customer_id := VStr "cus_9";
     Key.stripe_subscription_id := VStr "sub_9" |}.

Definition sample_store : world :=
  {| keys := [sample_key]; alerts := []; calls := [] |}.

(** The Authorization header that carries [token]. *)
Definition bearer (token : string) : string := ("Bearer " ++ token)%string.

(** The string of the given bytes. *)
Definition of_bytes (bytes : list nat) : string :=
  string_of_list_ascii (map ascii_of_nat bytes).

(** The euro sign, U+20AC, and the grinning face, U+1F600, in UTF-8. *)
Definition euro : string := of_bytes [226; 130; 172].
Definition grinning_face : string := of_bytes [240; 159; 152; 128].

(** * Properties *)

(** ** Association lists and property access *)

Lemma assoc_get_set_same {A} (k : string) (v : A) (l : list (string * A)) :
  assoc_get k (assoc_set k v l) = Some v.
Proof.
  induction l as [|[k' v'] t IH]; simpl.
  - now rewrite String.eqb_refl.
  - destruct (String.eqb k' k) eqn:E; simpl.
    + now rewrite String.eqb_refl.
    + now rewrite E.
Qed.

Lemma assoc_get_set_other {A} (k k' : string) (v : A) (l : list (string * A)) :
  String.eqb k k' = false ->
  assoc_get k' (assoc_set k v l) = assoc_get k' l.
Proof.
  intros Hk.
  induction l as [|[k0 v0] t IH]; simpl.
  - now rewrite Hk.
  - destruct (String.eqb k0 k) eqn:E; simpl.
    + apply String.eqb_eq in E. subst k0. now rewrite Hk.
    + now rewrite IH.
Qed.

Lemma assoc_get_app {A} (k : string) (l1 l2 : list (string * A)) :
  assoc_get k (l1 ++ l2) =
  match assoc_get k l1 with
  | Some v => Some v
  | None => assoc_get k l2
  end.
Proof.
  induction l1 as [|[k0 v0] t IH]; simpl; [reflexivity|].
  now destruct (String.eqb k0 k).
Qed.

(** No array index is spelled [markets]. *)
Lemma index_key_not_markets (n : nat) : String.eqb (index_key n) "markets" = false.
Proof.
  unfold index_key.
  destruct (Nat.to_uint n); reflexivity.
Qed.

Lemma assoc_get_markets_indexed (l : list value) (n : nat) :
  assoc_get "markets" (indexed n l) = None.
Proof.
  revert n. induction l as [|v t IH]; intros n; simpl; [reflexivity|].
  now rewrite index_key_not_markets.
Qed.

(** Assigning [markets] leaves every other property as it was. *)
Lemma get_prop_assign_markets_other (v d d' : value) (k : string) :
  assign_markets v d = Ok d' ->
  k <> "markets" ->
  get_prop k d' = get_prop k d.
Proof.
  intros Ha Hk.
  assert (Hkb : String.eqb "markets" k = false)
    by (apply String.eqb_neq; congruence).
  destruct d; simpl in Ha; try discriminate; inversion Ha; subst; simpl.
  - rewrite !assoc_get_app, assoc_get_set_other by exact Hkb. reflexivity.
  - now rewrite assoc_get_set_other.
Qed.

Lemma get_prop_assign_markets_same (v d d' : value) :
  assign_markets v d = Ok d' ->
  get_prop "markets" d' = Ok v.
Proof.
  intros Ha.
  destruct d; simpl in Ha; try discriminate; inversion Ha; subst; simpl.
  - now rewrite assoc_get_app, assoc_get_markets_indexed, assoc_get_set_same.
  - now rewrite assoc_get_set_same.
Qed.

Lemma truthy_assign_markets (v d d' : value) :
  assign_markets v d = Ok d' -> truthy d' = true.
Proof.
  destruct d; simpl; intros H; try discriminate; now inversion H.
Qed.

(** ** The snapshot cache and the scheduler *)

Lemma refreshBaseData_failure (f : fetched) (now : string) (C : cache) (e : error) :
  fetchJson f = Throw e -> refreshBaseData f now C = C.
Proof. unfold refreshBaseData. now intros ->. Qed.

Lemma refreshBaseData_success (f : fetched) (now : string) (C : cache) (payload : value) :
  fetchJson f = Ok payload ->
  refreshBaseData f now C =
  {| data := payload; dataUpdatedAt := Some now; marketsUpdatedAt := marketsUpdatedAt C |}.
Proof. unfold refreshBaseData. now intros ->. Qed.

Lemma failed_fetchJson (f : fetched) :
  failed f = true -> exists e, fetchJson f = Throw e.
Proof.
  destruct f as [|res]; simpl.
  - intros _. now exists NetworkFailure.
  - intros H. apply negb_true_iff in H. rewrite H. now eexists.
Qed.

Section SchedulerFacts.

Variable js_trim : string -> string.
Variable Number_finite : string -> option Q.

Lemma settle_cases (btc gold spx : fetched) (now : string) (C : cache) :
  refreshMarkets_settle js_trim Number_finite btc gold spx now C = C
  \/ exists b g s d,
       Promise_all (fetchBtcMarket btc) (fetchGoldMarket gold)
                   (fetchSp500Market js_trim Number_finite spx) = Ok (b, g, s)
       /\ assign_markets (VObj [("btc", b); ("gold", g); ("sp500", s)]) (data C) = Ok d
       /\ refreshMarkets_settle js_trim Number_finite btc gold spx now C =
          {| data := d; dataUpdatedAt := dataUpdatedAt C; marketsUpdatedAt := Some now |}.
Proof.
  unfold refreshMarkets_settle.
  destruct (Promise_all _ _ _) as [[[b g] s]|e]; [|now left].
  destruct (assign_markets _ _) as [d|e] eqn:Ha; [|now left].
  right. now exists b, g, s, d.
Qed.

Lemma settle_keeps_ready (btc gold spx : fetched) (now : string) (C : cache) :
  ready C = true -> ready (refreshMarkets_settle js_trim Number_finite btc gold spx now C) = true.
Proof.
  intros Hr.
  destruct (settle_cases btc gold spx now C) as [->|(b & g & s & d & _ & Ha & ->)].
  - exact Hr.
  - unfold ready; simpl. eapply truthy_assign_markets; eassumption.
Qed.

Lemma step_keeps_ready (s : server) (ev : event) :
  base_payload_truthy ev = true ->
  ready (CACHE s) = true ->
  ready (CACHE (step js_trim Number_finite s ev)) = true.
Proof.
  intros Hev Hr. destruct ev as [f now| |btc gold spx now]; simpl.
  - unfold refreshBaseData. simpl in Hev.
    destruct (fetchJson f) as [payload|e]; [exact Hev|exact Hr].
  - now destruct (refreshMarkets_start (CACHE s)).
  - destruct (pending s); [exact Hr|]. simpl. now apply settle_keeps_ready.
Qed.

Lemma run_keeps_ready (evs : list event) (s : server) :
  forallb base_payload_truthy evs = true ->
  ready (CACHE s) = true ->
  ready (CACHE (run js_trim Number_finite evs s)) = true.
Proof.
  revert s. induction evs as [|ev evs IH]; intros s Hall Hr; simpl in *.
  - exact Hr.
  - apply andb_true_iff in Hall as [Hev Hall].
    apply IH; [exact Hall|]. now apply step_keeps_ready.
Qed.

End SchedulerFacts.

(** C1 (as stated, refuted).  The upstream answers 200 with the JSON
    body [null]: [fetchJson] succeeds, [refreshBaseData] stores the
    payload, and a cache that was ready holds no document again. *)
Lemma base_refresh_null_payload_unreadies :
  let C := {| data := VObj [("score", VNum (50 # 1)); ("updatedAt", VStr "2024-06-01")];
              dataUpdatedAt := Some "t0";
              marketsUpdatedAt := None |} in
  let f := Resolved {| status := 200; json_body := Some VNull; text_body := "null" |} in
  ready C = true
  /\ fetchJson f = Ok VNull
  /\ refreshBaseData f "t1" C =
     {| data := VNull; dataUpdatedAt := Some "t1"; marketsUpdatedAt := None |}
  /\ ready (refreshBaseData f "t1" C) = false.
Proof. repeat split. Qed.

(** C1 (amended).  A base refresh whose fetch fails (network error,
    non-success status, or a body that is not JSON) leaves the whole
    cache as it was; one whose fetch succeeds with a truthy payload
    stores that payload and the time, and keeps [marketsUpdatedAt].  So
    along every interleaving of base and market refreshes in which no
    base refresh parses a falsy payload ([null], [false], [0], [""]), a
    cache that is ready stays ready. *)
Theorem base_refresh_keeps_snapshot
        (js_trim : string -> string) (Number_finite : string -> option Q)
        (evs : list event) (s : server) :
  forallb base_payload_truthy evs = true ->
  ready (CACHE s) = true ->
  ready (CACHE (run js_trim Number_finite evs s)) = true
  /\ (forall now C, refreshBaseData Rejected now C = C)
  /\ (forall res now C, res_ok res = false -> refreshBaseData (Resolved res) now C = C)
  /\ (forall res now C, json_body res = None -> refreshBaseData (Resolved res) now C = C)
  /\ (forall res now C payload,
         res_ok res = true -> json_body res = Some payload -> truthy payload = true ->
         refreshBaseData (Resolved res) now C =
         {| data := payload; dataUpdatedAt := Some now; marketsUpdatedAt := marketsUpdatedAt C |}).
Proof.
  intros Hall Hr. split; [now apply run_keeps_ready|].
  repeat split.
  - intros res now C Hok. apply refreshBaseData_failure with (e := FetchFailed (status res)).
    simpl. now rewrite Hok.
  - intros res now C Hbody. unfold refreshBaseData; simpl.
    rewrite Hbody. now destruct (res_ok res).
  - intros res now C payload Hok Hbody _. apply refreshBaseData_success.
    simpl. now rewrite Hok, Hbody.
Qed.

Lemma base_refresh_keeps_snapshot_witness :
  let doc := VObj [("score", VNum (50 # 1))] in
  let s := {| CACHE := {| data := doc; dataUpdatedAt := Some "t0"; marketsUpdatedAt := None |};
              pending := 0 |} in
  let evs := [BaseSettled Rejected "t1";
              MarketsFired;
              BaseSettled (ok_json (VObj [("score", VNum (61 # 1))])) "t2";
              MarketsSettled Rejected Rejected Rejected "t3";
              BaseSettled (Resolved {| status := 503; json_body := None; text_body := "" |}) "t4"] in
  ready (CACHE (run (fun x => x) (fun _ => None) evs s)) = true.
Proof.
  exact (proj1 (base_refresh_keeps_snapshot (fun x => x) (fun _ => None)
                  [BaseSettled Rejected "t1";
                   MarketsFired;
                   BaseSettled (ok_json (VObj [("score", VNum (61 # 1))])) "t2";
                   MarketsSettled Rejected Rejected Rejected "t3";
                   BaseSettled (Resolved {| status := 503; json_body := None; text_body := "" |}) "t4"]
                  {| CACHE := {| data := VObj [("score", VNum (50 # 1))];
                                 dataUpdatedAt := Some "t0"; marketsUpdatedAt := None |};
                     pending := 0 |}
                  eq_refl eq_refl)).
Defined.

(** ** Market refresh *)

Lemma fetchSp500Market_fulfils
      (js_trim : string -> string) (Number_finite : string -> option Q) (f : fetched) :
  exists price,
    fetchSp500Market js_trim Number_finite f =
    Ok (VObj [("price", price); ("marketCap", VNull); ("marketCapProxy", VStr "SPY")]).
Proof. unfold fetchSp500Market. eexists. reflexivity. Qed.

Lemma fetchBtcMarket_failed (f : fetched) :
  failed f = true -> exists e, fetchBtcMarket f = Throw e.
Proof.
  intros H. destruct (failed_fetchJson f H) as [e He].
  exists e. unfold fetchBtcMarket. now rewrite He.
Qed.

Lemma fetchGoldMarket_failed (f : fetched) :
  failed f = true -> exists e, fetchGoldMarket f = Throw e.
Proof.
  intros H. destruct (failed_fetchJson f H) as [e He].
  exists e. unfold fetchGoldMarket. now rewrite He.
Qed.

Lemma Promise_all_rejects_left (a b c : result value) (e : error) :
  a = Throw e -> exists e', Promise_all a b c = Throw e'.
Proof. intros ->. now exists e. Qed.

Lemma Promise_all_rejects_middle (a b c : result value) (e : error) :
  b = Throw e -> exists e', Promise_all a b c = Throw e'.
Proof. intros ->. destruct a; simpl; eauto. Qed.

Lemma fetchSp500Market_price
      (js_trim : string -> string) (Number_finite : string -> option Q) (spx : fetched) :
  exists price,
    null_or_number price = true
    /\ (spx = Rejected -> price = VNull)
    /\ fetchSp500Market js_trim Number_finite spx =
       Ok (VObj [("price", price); ("marketCap", VNull); ("marketCapProxy", VStr "SPY")]).
Proof.
  unfold fetchSp500Market. destruct spx as [|res].
  - exists VNull. now repeat split.
  - unfold fetchSpx.
    destruct (2 <=? _); [|exists VNull; repeat split; discriminate].
    destruct (nth_error _ 6) as [field|]; [|exists VNull; repeat split; discriminate].
    destruct (Number_finite field) as [q|].
    + exists (VNum q). repeat split. discriminate.
    + exists VNull. repeat split.
Qed.

(** C2 (as stated, refuted).  The btc and gold fetches succeed and the
    sp500 request fails, first with a network error, then with status
    500: [fetchSp500Market] absorbs both, the tick goes through, and
    [markets] and [marketsUpdatedAt] are overwritten. *)
Lemma sp500_failure_still_commits :
  let old := VObj [("btc", VObj [("price", VNum (59000 # 1)); ("marketCap", VNull)])] in
  let C := {| data := VObj [("score", VNum (50 # 1)); ("markets", old)];
              dataUpdatedAt := Some "t0";
              marketsUpdatedAt := Some "t0" |} in
  let btc := ok_json (VObj [("bitcoin", VObj [("usd", VNum (60000 # 1));
                                              ("usd_market_cap", VNum (1200000 # 1))])]) in
  let gold := ok_json (VObj [("price", VNum (2300 # 1))]) in
  let down := Resolved {| status := 500; json_body := None; text_body := "Internal Server Error" |} in
  let merged :=
    {| data := VObj [("score", VNum (50 # 1));
                     ("markets",
                      VObj [("btc", VObj [("price", VNum (60000 # 1));
                                          ("marketCap", VNum (1200000 # 1))]);
                            ("gold", VObj [("price", VNum (2300 # 1));
                                           ("marketCap", VNull);
                                           ("marketCapEstimate", VBool true)]);
                            ("sp500", VObj [("price", VNull);
                                            ("marketCap", VNull);
                                            ("marketCapProxy", VStr "SPY")])])];
       dataUpdatedAt := Some "t0";
       marketsUpdatedAt := Some "t1" |} in
  failed Rejected = true
  /\ failed down = true
  /\ refreshMarkets (fun x => x) (fun _ => None) btc gold Rejected "t1" C = merged
  /\ refreshMarkets (fun x => x) (fun _ => None) btc gold down "t1" C = merged.
Proof. repeat split. Qed.

(** C2 (amended).  When the btc or the gold fetch fails with a network
    error or a non-success status, the tick is abandoned as a whole: the
    cache, and so [markets] and [marketsUpdatedAt], is what it was.  A
    failing sp500 request abandons nothing: when the btc and the gold
    fetcher fulfil and the cached document is an object, the tick goes
    through, [markets] is overwritten with the three quotes and
    [marketsUpdatedAt] with the time; the sp500 price is [null] after a
    network error, and [null] or a number read off the body after a
    non-success status. *)
Theorem market_tick_abandoned_on_btc_or_gold_failure
        (js_trim : string -> string) (Number_finite : string -> option Q)
        (btc gold spx : fetched) (now : string) (C : cache) :
  (failed btc || failed gold = true ->
   refreshMarkets_settle js_trim Number_finite btc gold spx now C = C
   /\ refreshMarkets js_trim Number_finite btc gold spx now C = C)
  /\ (forall b g props,
        failed spx = true ->
        fetchBtcMarket btc = Ok b ->
        fetchGoldMarket gold = Ok g ->
        data C = VObj props ->
        exists price,
          null_or_number price = true
          /\ (spx = Rejected -> price = VNull)
          /\ refreshMarkets js_trim Number_finite btc gold spx now C =
             {| data :=
                  VObj (assoc_set "markets"
                          (VObj [("btc", b);
                                 ("gold", g);
                                 ("sp500", VObj [("price", price);
                                                 ("marketCap", VNull);
                                                 ("marketCapProxy", VStr "SPY")])])
                          props);
                dataUpdatedAt := dataUpdatedAt C;
                marketsUpdatedAt := Some now |}).
Proof.
  split.
  - intros Hf.
    assert (Hall : exists e, Promise_all (fetchBtcMarket btc) (fetchGoldMarket gold)
                                         (fetchSp500Market js_trim Number_finite spx)
                             = Throw e).
    { apply orb_true_iff in Hf as [Hb|Hg].
      - destruct (fetchBtcMarket_failed btc Hb) as [e He].
        eapply Promise_all_rejects_left; eassumption.
      - destruct (fetchGoldMarket_failed gold Hg) as [e He].
        eapply Promise_all_rejects_middle; eassumption. }
    destruct Hall as [e He].
    assert (Hs : refreshMarkets_settle js_trim Number_finite btc gold spx now C = C)
      by (unfold refreshMarkets_settle; now rewrite He).
    split; [exact Hs|].
    unfold refreshMarkets. now destruct (refreshMarkets_start C).
  - intros b g props _ Hb Hg Hd.
    assert (Hprice : exists price,
               null_or_number price = true
               /\ (spx = Rejected -> price = VNull)
               /\ fetchSp500Market js_trim Number_finite spx =
                  Ok (VObj [("price", price); ("marketCap", VNull);
                            ("marketCapProxy", VStr "SPY")])).
    { apply fetchSp500Market_price. }
    destruct Hprice as (price & Hn & Hrej & Hs).
    exists price. split; [exact Hn|]. split; [exact Hrej|].
    unfold refreshMarkets, refreshMarkets_start, refreshMarkets_settle.
    rewrite Hb, Hg, Hs, Hd. reflexivity.
Qed.

Lemma market_tick_abandoned_witness :
  let C := {| data := VObj [("score", VNum (50 # 1)); ("markets", VStr "old")];
              dataUpdatedAt := Some "t0";
              marketsUpdatedAt := Some "t0" |} in
  let btc := ok_json (VObj [("bitcoin", VObj [("usd", VNum (60000 # 1))])]) in
  let gold := ok_json (VObj [("price", VNum (2300 # 1))]) in
  refreshMarkets (fun x => x) (fun _ => None) Rejected gold Rejected "t1" C = C
  /\ refreshMarkets (fun x => x) (fun _ => None) btc gold Rejected "t1" C =
     {| data :=
          VObj [("score", VNum (50 # 1));
                ("markets",
                 VObj [("btc", VObj [("price", VNum (60000 # 1)); ("marketCap", VNull)]);
                       ("gold", VObj [("price", VNum (2300 # 1)); ("marketCap", VNull);
                                      ("marketCapEstimate", VBool true)]);
                       ("sp500", VObj [("price", VNull); ("marketCap", VNull);
                                       ("marketCapProxy", VStr "SPY")])])];
        dataUpdatedAt := Some "t0";
        marketsUpdatedAt := Some "t1" |}.
Proof.
  intros C btc gold. split.
  - exact (proj2 (proj1 (market_tick_abandoned_on_btc_or_gold_failure
                           (fun x => x) (fun _ => None) Rejected gold Rejected "t1" C)
                        eq_refl)).
  - destruct (proj2 (market_tick_abandoned_on_btc_or_gold_failure
                       (fun x => x) (fun _ => None) btc gold Rejected "t1" C)
                    (VObj [("price", VNum (60000 # 1)); ("marketCap", VNull)])
                    (VObj [("price", VNum (2300 # 1)); ("marketCap", VNull);
                           ("marketCapEstimate", VBool true)])
                    [("score", VNum (50 # 1)); ("markets", VStr "old")]
                    eq_refl eq_refl eq_refl eq_refl)
      as (price & _ & Hnull & Hrun).
    rewrite (Hnull eq_refl) in Hrun. exact Hrun.
Defined.

(** C3.  When [Promise.all] settles, [refreshMarkets] leaves
    [dataUpdatedAt] and every property of the cached document other than
    [markets] as they were; either it changes nothing at all, or it sets
    [markets] to the three quotes and [marketsUpdatedAt] to the time,
    which is what it does whenever the three fetchers fulfil and the
    cached document is an object. *)
Theorem market_refresh_touches_only_markets
        (js_trim : string -> string) (Number_finite : string -> option Q)
        (btc gold spx : fetched) (now : string) (C : cache) (k : string) :
  k <> "markets" ->
  let C' := refreshMarkets_settle js_trim Number_finite btc gold spx now C in
  dataUpdatedAt C' = dataUpdatedAt C
  /\ get_prop k (data C') = get_prop k (data C)
  /\ (C' = C
      \/ (marketsUpdatedAt C' = Some now
          /\ exists b g s,
               get_prop "markets" (data C') = Ok (VObj [("btc", b); ("gold", g); ("sp500", s)])))
  /\ (forall b g s props,
         fetchBtcMarket btc = Ok b -> fetchGoldMarket gold = Ok g ->
         fetchSp500Market js_trim Number_finite spx = Ok s ->
         data C = VObj props ->
         C' = {| data := VObj (assoc_set "markets" (VObj [("btc", b); ("gold", g); ("sp500", s)]) props);
                 dataUpdatedAt := dataUpdatedAt C;
                 marketsUpdatedAt := Some now |}).
Proof.
  intros Hk C'.
  assert (Hframe : dataUpdatedAt C' = dataUpdatedAt C
                   /\ get_prop k (data C') = get_prop k (data C)
                   /\ (C' = C
                       \/ (marketsUpdatedAt C' = Some now
                           /\ exists b g s,
                                get_prop "markets" (data C')
                                = Ok (VObj [("btc", b); ("gold", g); ("sp500", s)])))).
  { destruct (settle_cases js_trim Number_finite btc gold spx now C)
      as [Hsame|(b & g & s & d & _ & Ha & Hset)]; subst C'.
    - rewrite Hsame. repeat split. now left.
    - rewrite Hset. simpl. repeat split.
      + eapply get_prop_assign_markets_other; eassumption.
      + right. split; [reflexivity|]. exists b, g, s.
        eapply get_prop_assign_markets_same; eassumption. }
  destruct Hframe as (H1 & H2 & H3). repeat split; try assumption.
  intros b g s props Hb Hg Hs Hd. subst C'.
  unfold refreshMarkets_settle. rewrite Hb, Hg, Hs, Hd. reflexivity.
Qed.

Lemma market_refresh_touches_only_markets_witness :
  let C := {| data := VObj [("score", VNum (50 # 1)); ("drivers", VArr [VStr "rates"] [])];
              dataUpdatedAt := Some "t0";
              marketsUpdatedAt := None |} in
  let btc := ok_json (VObj [("bitcoin", VObj [("usd", VNum (60000 # 1))])]) in
  let gold := ok_json (VObj [("price", VNum (2300 # 1))]) in
  let C' := refreshMarkets_settle (fun x => x) (fun _ => None) btc gold Rejected "t1" C in
  dataUpdatedAt C' = Some "t0"
  /\ get_prop "drivers" (data C') = Ok (VArr [VStr "rates"] []).
Proof.
  pose proof (market_refresh_touches_only_markets (fun x => x) (fun _ => None)
                (ok_json (VObj [("bitcoin", VObj [("usd", VNum (60000 # 1))])]))
                (ok_json (VObj [("price", VNum (2300 # 1))]))
                Rejected "t1"
                {| data := VObj [("score", VNum (50 # 1)); ("drivers", VArr [VStr "rates"] [])];
                   dataUpdatedAt := Some "t0";
                   marketsUpdatedAt := None |}
                (k := "drivers") ltac:(discriminate)) as H.
  cbv zeta in H. destruct H as (H1 & H2 & _).
  split; [exact H1 | exact H2].
Defined.

(** C4.  [refreshMarkets] called while the cache holds no document
    returns at its guard: it issues no request, leaves no call waiting,
    and the cache is what it was. *)
Theorem market_refresh_without_base_is_noop
        (js_trim : string -> string) (Number_finite : string -> option Q)
        (btc gold spx : fetched) (now : string) (s : server) :
  ready (CACHE s) = false ->
  refreshMarkets_start (CACHE s) = None
  /\ step js_trim Number_finite s MarketsFired = s
  /\ refreshMarkets js_trim Number_finite btc gold spx now (CACHE s) = CACHE s.
Proof.
  unfold ready. intros Hr.
  assert (Hstart : refreshMarkets_start (CACHE s) = None)
    by (unfold refreshMarkets_start; now rewrite Hr).
  repeat split.
  - exact Hstart.
  - simpl. now rewrite Hstart.
  - unfold refreshMarkets. now rewrite Hstart.
Qed.

Lemma market_refresh_without_base_witness :
  let quote := ok_json (VObj [("price", VNum (2300 # 1))]) in
  data (CACHE boot) = VNull
  /\ refreshMarkets_start (CACHE boot) = None
  /\ step (fun x => x) (fun _ => None) boot MarketsFired = boot
  /\ refreshMarkets (fun x => x) (fun _ => None) quote quote quote "t1" (CACHE boot) = CACHE boot.
Proof.
  split; [reflexivity|].
  exact (market_refresh_without_base_is_noop (fun x => x) (fun _ => None)
           (ok_json (VObj [("price", VNum (2300 # 1))]))
           (ok_json (VObj [("price", VNum (2300 # 1))]))
           (ok_json (VObj [("price", VNum (2300 # 1))]))
           "t1" boot eq_refl).
Defined.

(** ** Base refresh against merged markets *)

Lemma get_prop_truthy (k : string) (v : value) :
  truthy v = true -> exists x, get_prop k v = Ok x.
Proof.
  destruct v; simpl; try discriminate; intros _;
    try (destruct (String.eqb k "length")); eauto.
Qed.

(** C9.  A successful base refresh stores the fetched payload as the
    whole document and keeps [marketsUpdatedAt]; what [GET /public/index]
    then serves carries the old [marketsUpdatedAt] next to the [markets]
    of the payload alone, not the quotes merged earlier. *)
Theorem base_refresh_discards_merged_markets
        (signalFromScore : value -> value)
        (f : fetched) (payload : value) (now : string) (C : cache) :
  fetchJson f = Ok payload ->
  truthy payload = true ->
  let C' := refreshBaseData f now C in
  data C' = payload
  /\ dataUpdatedAt C' = Some now
  /\ marketsUpdatedAt C' = marketsUpdatedAt C
  /\ exists served,
       public_index signalFromScore C' = Ok {| code := 200; content := Json (VObj served) |}
       /\ assoc_get "marketsUpdatedAt" served = Some (opt_str (marketsUpdatedAt C))
       /\ assoc_get "markets" served = assoc_get "markets" (own_props payload).
Proof.
  intros Hf Ht C'. subst C'. rewrite (refreshBaseData_success f now C Hf). simpl.
  repeat split.
  unfold public_index. simpl. rewrite Ht. simpl.
  destruct (get_prop_truthy "score" payload Ht) as [score Hs]. rewrite Hs. simpl.
  eexists. split; [reflexivity|]. split.
  - apply assoc_get_set_same.
  - now rewrite !assoc_get_set_other.
Qed.

Lemma base_refresh_discards_merged_markets_witness :
  let quotes := VObj [("btc", VObj [("price", VNum (60000 # 1)); ("marketCap", VNull)])] in
  let C := {| data := VObj [("score", VNum (50 # 1)); ("markets", quotes)];
              dataUpdatedAt := Some "t0";
              marketsUpdatedAt := Some "t1" |} in
  let f := ok_json (VObj [("score", VNum (61 # 1))]) in
  let C' := refreshBaseData f "t2" C in
  public_index (fun _ => VStr "neutral") C' =
  Ok {| code := 200;
        content := Json (VObj [("score", VNum (61 # 1));
                               ("signal", VStr "neutral");
                               ("dataUpdatedAt", VStr "t2");
                               ("marketsUpdatedAt", VStr "t1")]) |}
  /\ data C' = VObj [("score", VNum (61 # 1))]
  /\ marketsUpdatedAt C' = Some "t1".
Proof.
  split; [reflexivity|].
  pose proof (base_refresh_discards_merged_markets (fun _ => VStr "neutral")
                (ok_json (VObj [("score", VNum (61 # 1))]))
                (payload := VObj [("score", VNum (61 # 1))]) "t2"
                {| data := VObj [("score", VNum (50 # 1));
                                 ("markets", VObj [("btc", VObj [("price", VNum (60000 # 1));
                                                                 ("marketCap", VNull)])])];
                   dataUpdatedAt := Some "t0";
                   marketsUpdatedAt := Some "t1" |}
                eq_refl eq_refl) as H.
  cbv zeta in H. destruct H as (H1 & _ & H3 & _).
  split; [exact H1 | exact H3].
Defined.

(** ** The auth gate *)

Lemma requireKey_no_token (hashKey : string -> string) (req : request) (w : world) :
  no_token (token_of req) = true ->
  requireKey hashKey req w = (Ok (Reject (json_error 401 "Missing API key")), w).
Proof. unfold requireKey. now intros ->. Qed.

(** With a token, the gate hashes it, looks the hash up, and decides on
    the record found; the two calls are all it does to the world. *)
Lemma requireKey_token (hashKey : string -> string) (req : request) (w : world) (t : string) :
  token_of req = Some t ->
  no_token (Some t) = false ->
  requireKey hashKey req w =
  (Ok match lookupByHash (hashKey t) (keys w) with
      | Some r => if is_string "active" (Key.status r) then Proceed r
                  else Reject (json_error 403 "Invalid API key")
      | None => Reject (json_error 403 "Invalid API key")
      end,
   logged [Call_hashKey t; Call_getKeyByHash (hashKey t)] w).
Proof.
  intros Ht Hn. unfold requireKey. rewrite Ht, Hn.
  unfold call_hashKey, getKeyByHash, bind, log, ret, logged. simpl.
  rewrite <- app_assoc. simpl.
  destruct (lookupByHash (hashKey t) (keys w)) as [r|]; [|reflexivity].
  now destruct (is_string "active" (Key.status r)).
Qed.

Lemma requireKey_reads_only (hashKey : string -> string) (req : request) (w : world) :
  keys (snd (requireKey hashKey req w)) = keys w
  /\ alerts (snd (requireKey hashKey req w)) = alerts w.
Proof.
  destruct (no_token (token_of req)) eqn:Hn.
  - now rewrite requireKey_no_token.
  - destruct (token_of req) as [t|] eqn:Ht; [|discriminate].
    now rewrite (requireKey_token hashKey req w Ht Hn).
Qed.

Lemma behind_reject (mw : request -> M gate) (handler : Key.record -> request -> M response)
      (req : request) (w w' : world) (r : response) :
  mw req w = (Ok (Reject r), w') ->
  behind mw handler req w = (Ok r, w').
Proof. unfold behind, bind. now intros ->. Qed.

Lemma behind_proceed (mw : request -> M gate) (handler : Key.record -> request -> M response)
      (req : request) (w w' : world) (apiKey : Key.record) :
  mw req w = (Ok (Proceed apiKey), w') ->
  behind mw handler req w = handler apiKey req w'.
Proof. unfold behind, bind. now intros ->. Qed.

Lemma is_string_true (s : string) (v : value) : v = VStr s -> is_string s v = true.
Proof. intros ->. simpl. apply String.eqb_refl. Qed.

Lemma is_string_false (s : string) (v : value) : v <> VStr s -> is_string s v = false.
Proof.
  intros Hv. destruct v; simpl; try reflexivity.
  apply String.eqb_neq. congruence.
Qed.

Lemma no_token_some (t : string) : t <> "" -> no_token (Some t) = false.
Proof. intros Ht. simpl. now apply String.eqb_neq. Qed.

Lemma token_of_absent (req : request) :
  authorization req = None -> token_of req = None.
Proof. unfold token_of. now intros ->. Qed.

Lemma token_of_other_scheme (req : request) (a : string) :
  authorization req = Some a -> prefix "Bearer " a = false -> token_of req = None.
Proof. unfold token_of. now intros -> ->. Qed.

Lemma token_of_bearer_header (req : request) (t : string) :
  authorization req = Some (bearer t) -> token_of req = Some t.
Proof.
  intros Ha.
  assert (Hp : prefix "Bearer " (bearer t) = true)
    by (apply prefix_correct; simpl; now destruct t).
  unfold token_of. now rewrite Ha, Hp.
Qed.

(** C5.  The gate never changes the key store or the alert table.  A
    request with no Authorization header, with a header that does not
    start with [Bearer ], or with [Bearer ] and nothing after it, is
    answered 401 [Missing API key] and the handler behind the gate does
    not run.  A request with the header [Bearer t], [t] not empty, is
    answered 403 [Invalid API key], the handler not run, when the hash
    of [t] is not in the store or its record is not active; when the
    record is active the handler runs, with that record. *)
Theorem auth_gate_decides
        (hashKey : string -> string)
        (handler : Key.record -> request -> M response)
        (req : request) (w : world) :
  let missing := {| code := 401;
                    content := Json (VObj [("error", VStr "Missing API key")]) |} in
  let invalid := {| code := 403;
                    content := Json (VObj [("error", VStr "Invalid API key")]) |} in
  (keys (snd (requireKey hashKey req w)) = keys w
   /\ alerts (snd (requireKey hashKey req w)) = alerts w)
  /\ (authorization req = None ->
      behind (requireKey hashKey) handler req w = (Ok missing, w))
  /\ (forall a, authorization req = Some a -> prefix "Bearer " a = false ->
        behind (requireKey hashKey) handler req w = (Ok missing, w))
  /\ (authorization req = Some (bearer "") ->
      behind (requireKey hashKey) handler req w = (Ok missing, w))
  /\ (forall t, authorization req = Some (bearer t) -> t <> "" ->
        let w' := logged [Call_hashKey t; Call_getKeyByHash (hashKey t)] w in
        (lookupByHash (hashKey t) (keys w) = None ->
         behind (requireKey hashKey) handler req w = (Ok invalid, w'))
        /\ (forall r, lookupByHash (hashKey t) (keys w) = Some r ->
              Key.status r <> VStr "active" ->
              behind (requireKey hashKey) handler req w = (Ok invalid, w'))
        /\ (forall r, lookupByHash (hashKey t) (keys w) = Some r ->
              Key.status r = VStr "active" ->
              requireKey hashKey req w = (Ok (Proceed r), w')
              /\ behind (requireKey hashKey) handler req w = handler r req w')).
Proof.
  intros missing invalid.
  assert (H401 : token_of req = None \/ token_of req = Some "" ->
                 behind (requireKey hashKey) handler req w = (Ok missing, w)).
  { intros Ht. apply behind_reject. apply requireKey_no_token.
    now destruct Ht as [-> | ->]. }
  split; [apply requireKey_reads_only|].
  split; [intros Ha; apply H401; left; now apply token_of_absent|].
  split; [intros a Ha Hp; apply H401; left; now apply token_of_other_scheme with (a := a)|].
  split; [intros Ha; apply H401; right; now apply token_of_bearer_header|].
  intros t Ha Hne w'.
  pose proof (requireKey_token hashKey req w (@token_of_bearer_header req t Ha)
                (no_token_some Hne)) as Hrun.
  fold w' in Hrun. split; [|split].
  - intros Hnone. apply behind_reject. now rewrite Hrun, Hnone.
  - intros r Hsome Hst. apply behind_reject.
    now rewrite Hrun, Hsome, (is_string_false Hst).
  - intros r Hsome Hst.
    assert (Hgate : requireKey hashKey req w = (Ok (Proceed r), w'))
      by now rewrite Hrun, Hsome, (is_string_true Hst).
    split; [exact Hgate|]. now apply behind_proceed.
Qed.

Lemma auth_gate_decides_witness :
  let lapsed := Key.with_status (VStr "inactive")
                  (Key.with_id (VNum (2 # 1))
                     {| Key.id := VUndefined; Key.key_hash := "sha256:ici_live_old";
                        Key.plan := VStr "pro"; Key.status := VStr "active";
                        Key.email := VNull;
                        Key.stripe_customer_id := VStr "cus_2";
                        Key.stripe_subscription_id := VStr "sub_2" |}) in
  let w := {| keys := [sample_key; lapsed]; alerts := []; calls := [] |} in
  let echo := fun (apiKey : Key.record) (_ : request) =>
                ret {| code := 200; content := Json (Key.email apiKey) |} in
  let gate := behind (requireKey sample_hash) echo in
  let asked := fun t => logged [Call_hashKey t; Call_getKeyByHash (sample_hash t)] w in
  gate {| authorization := None; stripe_signature := VUndefined;
          body := VUndefined; rawBody := None |} w
  = (Ok (json_error 401 "Missing API key"), w)
  /\ gate (with_authorization (bearer "")) w = (Ok (json_error 401 "Missing API key"), w)
  /\ gate (with_authorization (bearer "ici_live_xyz")) w
     = (Ok (json_error 403 "Invalid API key"), asked "ici_live_xyz")
  /\ gate (with_authorization (bearer "ici_live_old")) w
     = (Ok (json_error 403 "Invalid API key"), asked "ici_live_old")
  /\ gate (with_authorization (bearer "ici_live_abc")) w
     = (Ok {| code := 200; content := Json (VStr "a@b.com") |}, asked "ici_live_abc").
Proof.
  intros lapsed w echo gate asked.
  split; [|split; [|split; [|split]]].
  - exact (proj1 (proj2 (auth_gate_decides sample_hash echo
                           {| authorization := None; stripe_signature := VUndefined;
                              body := VUndefined; rawBody := None |} w)) eq_refl).
  - exact (proj1 (proj2 (proj2 (proj2 (auth_gate_decides sample_hash echo
                                         (with_authorization (bearer "")) w)))) eq_refl).
  - exact (proj1 (proj2 (proj2 (proj2 (proj2 (auth_gate_decides sample_hash echo
                                                (with_authorization (bearer "ici_live_xyz")) w))))
                        "ici_live_xyz" eq_refl ltac:(discriminate)) eq_refl).
  - exact (proj1 (proj2 (proj2 (proj2 (proj2 (proj2 (auth_gate_decides sample_hash echo
                                                       (with_authorization (bearer "ici_live_old")) w))))
                               "ici_live_old" eq_refl ltac:(discriminate)))
                 lapsed eq_refl ltac:(discriminate)).
  - exact (proj2 (proj2 (proj2 (proj2 (proj2 (proj2 (proj2 (auth_gate_decides sample_hash echo
                                                              (with_authorization (bearer "ici_live_abc")) w))))
                                      "ici_live_abc" eq_refl ltac:(discriminate)))
                        sample_key eq_refl eq_refl)).
Defined.

(** C10.  An Authorization header that does not start with [Bearer ]
    is a missing token: the answer is 401 [Missing API key], the handler
    does not run, and the world is untouched, so nothing was hashed or
    looked up. *)
Theorem malformed_authorization_is_missing_key
        (hashKey : string -> string)
        (handler : Key.record -> request -> M response)
        (req : request) (a : string) (w : world) :
  authorization req = Some a ->
  prefix "Bearer " a = false ->
  token_of req = None
  /\ behind (requireKey hashKey) handler req w =
     (Ok {| code := 401; content := Json (VObj [("error", VStr "Missing API key")]) |}, w).
Proof.
  intros Ha Hp.
  assert (Ht : token_of req = None) by (unfold token_of; now rewrite Ha, Hp).
  split; [exact Ht|].
  apply behind_reject. apply requireKey_no_token. now rewrite Ht.
Qed.

Lemma malformed_authorization_witness :
  let hashKey := sample_hash in
  let w := {| keys := []; alerts := []; calls := [] |} in
  let lower := {| authorization := Some "bearer ici_live_abc";
                  stripe_signature := VUndefined; body := VObj []; rawBody := None |} in
  let raw := {| authorization := Some "ici_live_abc";
                stripe_signature := VUndefined; body := VObj []; rawBody := None |} in
  behind (requireKey hashKey) (fun _ _ => ret received) lower w =
  (Ok (json_error 401 "Missing API key"), w)
  /\ behind (requireKey hashKey) (fun _ _ => ret received) raw w =
     (Ok (json_error 401 "Missing API key"), w).
Proof.
  split.
  - exact (proj2 (malformed_authorization_is_missing_key sample_hash
                    (fun _ _ => ret received)
                    {| authorization := Some "bearer ici_live_abc";
                       stripe_signature := VUndefined; body := VObj []; rawBody := None |}
                    {| keys := []; alerts := []; calls := [] |}
                    eq_refl eq_refl)).
  - exact (proj2 (malformed_authorization_is_missing_key sample_hash
                    (fun _ _ => ret received)
                    {| authorization := Some "ici_live_abc";
                       stripe_signature := VUndefined; body := VObj []; rawBody := None |}
                    {| keys := []; alerts := []; calls := [] |}
                    eq_refl eq_refl)).
Defined.

(** ** Alert subscription *)

(** C8 (as stated, refuted).  The body carries both fields, with the
    values [""] and [0]; the key is valid; the answer is 400 and no
    alert is added. *)
Lemma falsy_contact_fields_are_rejected :
  let r := {| Key.id := VNum (1 # 1); Key.key_hash := "sha256:ici_live_abc";
              Key.plan := VStr "pro"; Key.status := VStr "active";
              Key.email := VStr "a@b.com";
              Key.stripe_customer_id := VStr "cus_1";
              Key.stripe_subscription_id := VStr "sub_1" |} in
  let w := {| keys := [r]; alerts := []; calls := [] |} in
  let req := {| authorization := Some "Bearer ici_live_abc";
                stripe_signature := VUndefined;
                body := VObj [("email", VStr ""); ("telegramChatId", VNum (0 # 1))];
                rawBody := None |} in
  requireKey sample_hash req w =
  (Ok (Proceed r),
   logged [Call_hashKey "ici_live_abc"; Call_getKeyByHash "sha256:ici_live_abc"] w)
  /\ get_prop "email" (body req) = Ok (VStr "")
  /\ get_prop "telegramChatId" (body req) = Ok (VNum (0 # 1))
  /\ post_alerts_subscribe sample_hash req w =
     (Ok (json_error 400 "Provide email or telegramChatId"),
      logged [Call_hashKey "ici_live_abc"; Call_getKeyByHash "sha256:ici_live_abc"] w).
Proof. repeat split. Qed.

Lemma get_prop_body (k : string) (req : request) :
  exists v, get_prop k (js_or (body req) (VObj [])) = Ok v.
Proof.
  apply get_prop_truthy. unfold js_or.
  now destruct (truthy (body req)) eqn:E.
Qed.

(** C8 (amended).  Behind the gate, [POST /v1/alerts/subscribe] reads
    [email] and [telegramChatId] off the body.  When neither is truthy
    (absent, [null], [""], [0], [false]) it answers 400 [Provide email or
    telegramChatId] and adds nothing; when one is truthy it adds one
    alert carrying the id of the resolved key and answers 200 [ok]. *)
Theorem alerts_subscribe_needs_truthy_contact
        (hashKey : string -> string)
        (req : request) (apiKey : Key.record) (w w1 : world) :
  requireKey hashKey req w = (Ok (Proceed apiKey), w1) ->
  exists email telegramChatId,
    get_prop "email" (js_or (body req) (VObj [])) = Ok email
    /\ get_prop "telegramChatId" (js_or (body req) (VObj [])) = Ok telegramChatId
    /\ (truthy email = false -> truthy telegramChatId = false ->
        post_alerts_subscribe hashKey req w =
        (Ok (json_error 400 "Provide email or telegramChatId"), w1))
    /\ (truthy email || truthy telegramChatId = true ->
        let a := {| Alert.api_key_id := Key.id apiKey;
                    Alert.email := email;
                    Alert.telegram_chat_id := js_or telegramChatId VNull |} in
        post_alerts_subscribe hashKey req w =
        (Ok {| code := 200; content := Json (VObj [("ok", VBool true)]) |},
         {| keys := keys w1; alerts := alerts w1 ++ [a]; calls := calls w1 ++ [Call_addAlert a] |})).
Proof.
  intros Hgate.
  destruct (get_prop_body "email" req) as [email He].
  destruct (get_prop_body "telegramChatId" req) as [chat Hc].
  exists email, chat. split; [exact He|]. split; [exact Hc|].
  unfold post_alerts_subscribe.
  rewrite behind_proceed with (w' := w1) (apiKey := apiKey) by exact Hgate.
  unfold alerts_subscribe, bind, lift. rewrite He, Hc. split.
  - intros -> ->. reflexivity.
  - intros Hany. apply orb_true_iff in Hany.
    replace (negb (truthy email) && negb (truthy chat)) with false
      by (destruct Hany as [-> | ->]; simpl; now rewrite ?andb_false_r).
    reflexivity.
Qed.

Lemma alerts_subscribe_witness :
  let r := {| Key.id := VNum (1 # 1); Key.key_hash := "sha256:ici_live_abc";
              Key.plan := VStr "pro"; Key.status := VStr "active";
              Key.email := VStr "a@b.com";
              Key.stripe_customer_id := VStr "cus_1";
              Key.stripe_subscription_id := VStr "sub_1" |} in
  let w := {| keys := [r]; alerts := []; calls := [] |} in
  let req := {| authorization := Some "Bearer ici_live_abc";
                stripe_signature := VUndefined;
                body := VObj [("telegramChatId", VStr "42")];
                rawBody := None |} in
  let a := {| Alert.api_key_id := VNum (1 # 1);
              Alert.email := VUndefined;
              Alert.telegram_chat_id := VStr "42" |} in
  post_alerts_subscribe sample_hash req w =
  (Ok {| code := 200; content := Json (VObj [("ok", VBool true)]) |},
   {| keys := [r];
      alerts := [a];
      calls := [Call_hashKey "ici_live_abc";
                Call_getKeyByHash "sha256:ici_live_abc";
                Call_addAlert a] |}).
Proof.
  intros r w req a.
  destruct (alerts_subscribe_needs_truthy_contact sample_hash req (apiKey := r) w
              (w1 := logged [Call_hashKey "ici_live_abc";
                             Call_getKeyByHash "sha256:ici_live_abc"] w) eq_refl)
    as (email & chat & He & Hc & _ & Hpos).
  injection He as <-. injection Hc as <-.
  exact (Hpos eq_refl).
Defined.

(** ** The billing webhook *)

Section WebhookFacts.

Variable hashKey : string -> string.
Variable fresh_id : list Key.record -> value.
Variable constructEvent : option string -> value -> value -> string + value.
Variable env : environment.

(** X1.  A refused signature: 400 with the error's message, and the
    world is untouched. *)
Lemma webhook_refuses_bad_signature
      (req : request) (secret : string) (mail : fetched) (w : world) (message : string) :
  constructEvent (rawBody req) (stripe_signature req) (STRIPE_WEBHOOK_SECRET env)
  = inl message ->
  webhook hashKey fresh_id constructEvent env req secret mail w =
  (Ok {| code := 400; content := Text ("Webhook Error: " ++ message) |}, w).
Proof. unfold webhook. now intros ->. Qed.

(** X2.  A verified event of a type the handler does not know:
    acknowledged, and the world is untouched. *)
Lemma webhook_acknowledges_other_events
      (req : request) (secret : string) (mail : fetched) (w : world)
      (event event_type : value) :
  constructEvent (rawBody req) (stripe_signature req) (STRIPE_WEBHOOK_SECRET env)
  = inr event ->
  get_prop "type" event = Ok event_type ->
  is_string "checkout.session.completed" event_type = false ->
  is_string "customer.subscription.deleted" event_type = false ->
  webhook hashKey fresh_id constructEvent env req secret mail w = (Ok received, w).
Proof.
  unfold webhook. intros -> Ht H1 H2.
  unfold bind, lift. rewrite Ht, H1, H2. reflexivity.
Qed.

(** What the checkout branch does, whatever the mailer answers. *)
Lemma webhook_checkout
      (req : request) (secret : string) (mail : fetched) (w : world)
      (event event_data session customer_email customer subscription : value) :
  constructEvent (rawBody req) (stripe_signature req) (STRIPE_WEBHOOK_SECRET env)
  = inr event ->
  get_prop "type" event = Ok (VStr "checkout.session.completed") ->
  get_prop "data" event = Ok event_data ->
  get_prop "object" event_data = Ok session ->
  get_prop "customer_email" session = Ok customer_email ->
  get_prop "customer" session = Ok customer ->
  get_prop "subscription" session = Ok subscription ->
  let minted := {| Key.id := VUndefined;
                   Key.key_hash := hashKey secret;
                   Key.plan := VStr "pro";
                   Key.status := VStr "active";
                   Key.email := js_or customer_email VNull;
                   Key.stripe_customer_id := js_or customer VNull;
                   Key.stripe_subscription_id := js_or subscription VNull |} in
  let notified := truthy customer_email && truthy (MAILER_URL env) in
  webhook hashKey fresh_id constructEvent env req secret mail w =
  (if notified then
     match mail with
     | Rejected => Throw NetworkFailure
     | Resolved _ => Ok received
     end
   else Ok received,
   {| keys := keys w ++ [Key.with_id (fresh_id (keys w)) minted];
      alerts := alerts w;
      calls := calls w
               ++ [Call_generateKey; Call_hashKey secret; Call_insertKey minted]
               ++ (if notified then [Call_fetch (key_mail env customer_email secret)]
                   else []) |}).
Proof.
  intros Hev Ht Hd Ho Hce Hcu Hsu minted notified.
  unfold webhook. rewrite Hev.
  unfold bind, lift, generateKey, call_hashKey, insertKey, fetch_post, log, ret, bind.
  rewrite Ht. simpl. rewrite Hd, Ho, Hce, Hcu, Hsu. simpl.
  fold minted. fold notified.
  destruct notified; simpl.
  - destruct mail; simpl; repeat rewrite <- app_assoc; reflexivity.
  - repeat rewrite <- app_assoc. reflexivity.
Qed.

End WebhookFacts.



(** C6 (the failing run).  A verified [checkout.session.completed] event
    arrives while the mailer is unreachable: the key is minted and stored,
    the awaited request rejects, and the handler ends without sending
    [200 {received: true}]. *)
Lemma webhook_mailer_failure_sends_no_ack :
  let minted := {| Key.id := VUndefined;
                   Key.key_hash := "sha256:ici_live_new";
                   Key.plan := VStr "pro";
                   Key.status := VStr "active";
                   Key.email := VStr "a@b.com";
                   Key.stripe_customer_id := VStr "cus_1";
                   Key.stripe_subscription_id := VStr "sub_1" |} in
  sample_constructEvent sample_checkout
    (rawBody sample_webhook_request) (stripe_signature sample_webhook_request)
    (STRIPE_WEBHOOK_SECRET sample_env) = inr sample_checkout
  /\ webhook sample_hash sample_fresh_id (sample_constructEvent sample_checkout)
             sample_env sample_webhook_request "ici_live_new" Rejected empty_world =
     (Throw NetworkFailure,
      {| keys := [Key.with_id (VNum (1 # 1)) minted];
         alerts := [];
         calls := [Call_generateKey; Call_hashKey "ici_live_new"; Call_insertKey minted;
                   Call_fetch (key_mail sample_env (VStr "a@b.com") "ici_live_new")] |}).
Proof. split; reflexivity. Qed.

(** X3.  A verified [customer.subscription.deleted] event: one call to
    [updateKeySubscription] with the subscription's customer and id and
    the status [inactive], nothing else, and the acknowledgement. *)
Lemma webhook_cancellation_deactivates
      (hashKey : string -> string) (fresh_id : list Key.record -> value)
      (constructEvent : option string -> value -> value -> string + value)
      (env : environment)
      (req : request) (secret : string) (mail : fetched) (w : world)
      (event event_data subscription customer sub_id : value) :
  constructEvent (rawBody req) (stripe_signature req) (STRIPE_WEBHOOK_SECRET env)
  = inr event ->
  get_prop "type" event = Ok (VStr "customer.subscription.deleted") ->
  get_prop "data" event = Ok event_data ->
  get_prop "object" event_data = Ok subscription ->
  get_prop "customer" subscription = Ok customer ->
  get_prop "id" subscription = Ok sub_id ->
  let done := webhook hashKey fresh_id constructEvent env req secret mail w in
  fst done = Ok received
  /\ alerts (snd done) = alerts w
  /\ List.length (keys (snd done)) = List.length (keys w)
  /\ calls (snd done) =
     calls w ++ [Call_updateKeySubscription customer sub_id (VStr "inactive")].
Proof.
  intros Hev Ht Hd Ho Hcu Hid done. subst done.
  unfold webhook. rewrite Hev.
  unfold bind, lift, updateKeySubscription, log, ret, bind.
  rewrite Ht. simpl. rewrite Hd, Ho, Hcu, Hid. simpl.
  repeat split. apply length_map.
Qed.

Lemma webhook_refuses_bad_signature_witness :
  let req := {| authorization := None; stripe_signature := VStr "t=1,v1=forged";
                body := sample_checkout; rawBody := Some "{...}" |} in
  webhook sample_hash sample_fresh_id (sample_constructEvent sample_checkout)
          sample_env req "ici_live_new" Rejected empty_world =
  (Ok {| code := 400;
         content := Text "Webhook Error: No signatures found matching the expected signature for payload" |},
   empty_world).
Proof.
  exact (webhook_refuses_bad_signature sample_hash sample_fresh_id
           (sample_constructEvent sample_checkout) sample_env
           {| authorization := None; stripe_signature := VStr "t=1,v1=forged";
              body := sample_checkout; rawBody := Some "{...}" |}
           "ici_live_new" Rejected empty_world eq_refl).
Defined.

Lemma webhook_acknowledges_other_events_witness :
  webhook sample_hash sample_fresh_id (sample_constructEvent sample_invoice_paid)
          sample_env sample_webhook_request "ici_live_new" Rejected empty_world =
  (Ok received, empty_world).
Proof.
  exact (webhook_acknowledges_other_events sample_hash sample_fresh_id
           (sample_constructEvent sample_invoice_paid) sample_env
           sample_webhook_request "ici_live_new" Rejected empty_world
           (event := sample_invoice_paid) (event_type := VStr "invoice.paid")
           eq_refl eq_refl eq_refl eq_refl).
Defined.

Lemma webhook_cancellation_witness :
  let done := webhook sample_hash sample_fresh_id (sample_constructEvent sample_cancellation)
                      sample_env sample_webhook_request "ici_live_new" Rejected empty_world in
  fst done = Ok received
  /\ calls (snd done) =
     [Call_updateKeySubscription (VStr "cus_9") (VStr "sub_9") (VStr "inactive")].
Proof.
  intros done.
  destruct (webhook_cancellation_deactivates sample_hash sample_fresh_id
              (sample_constructEvent sample_cancellation) sample_env
              sample_webhook_request "ici_live_new" Rejected empty_world
              (event := sample_cancellation)
              (event_data := VObj [("object", VObj [("id", VStr "sub_9");
                                                    ("customer", VStr "cus_9")])])
              (subscription := VObj [("id", VStr "sub_9"); ("customer", VStr "cus_9")])
              eq_refl eq_refl eq_refl eq_refl eq_refl eq_refl)
    as (Hr & _ & _ & Hc).
  split; [exact Hr | exact Hc].
Defined.

(** * Further properties of the scheduler and the fetchers *)



Lemma null_or_truthy_js_or (v : value) : null_or_truthy (js_or v VNull) = true.
Proof.
  unfold js_or. destruct (truthy v) eqn:E; [|reflexivity].
  now destruct v.
Qed.

Lemma fetchBtcMarket_shape (f : fetched) (b : value) :
  fetchBtcMarket f = Ok b ->
  exists price cap,
    b = VObj [("price", price); ("marketCap", cap)]
    /\ null_or_truthy price = true /\ null_or_truthy cap = true.
Proof.
  unfold fetchBtcMarket.
  destruct (fetchJson f) as [d|e]; simpl; [|discriminate].
  destruct (get_prop "bitcoin" d) as [bitcoin|e]; simpl; [|discriminate].
  destruct (get_prop "usd" (js_or bitcoin (VObj []))) as [usd|e]; simpl; [|discriminate].
  destruct (get_prop "usd_market_cap" (js_or bitcoin (VObj []))) as [cap|e]; simpl;
    [|discriminate].
  intros H. inversion H. eexists. eexists. split; [reflexivity|].
  split; apply null_or_truthy_js_or.
Qed.

Lemma fetchGoldMarket_shape (f : fetched) (g : value) :
  fetchGoldMarket f = Ok g ->
  exists price,
    g = VObj [("price", price); ("marketCap", VNull); ("marketCapEstimate", VBool true)]
    /\ null_or_truthy price = true.
Proof.
  unfold fetchGoldMarket.
  destruct (fetchJson f) as [d|e]; simpl; [|discriminate].
  destruct (get_prop "price" d) as [price|e]; simpl; [|discriminate].
  intros H. inversion H. eexists. split; [reflexivity|]. apply null_or_truthy_js_or.
Qed.

Lemma length_split_on (sep : ascii) (s : string) :
  List.length (split_on sep s) = S (count_char sep s).
Proof.
  induction s as [|c t IH]; simpl; [reflexivity|].
  destruct (Ascii.eqb c sep); simpl.
  - now rewrite IH.
  - destruct (split_on sep t) as [|h r]; simpl in *; [discriminate|exact IH].
Qed.

Lemma Promise_all_fulfilled (a b c : result value) (x y z : value) :
  Promise_all a b c = Ok (x, y, z) -> a = Ok x /\ b = Ok y /\ c = Ok z.
Proof.
  destruct a, b, c; simpl; try discriminate.
  intros H. now inversion H.
Qed.

Section FetcherFacts.

Variable js_trim : string -> string.
Variable Number_finite : string -> option Q.

Lemma fetchSpx_resolved (res : http_response) :
  exists v, fetchSpx js_trim Number_finite (Resolved res) = Ok v
            /\ null_or_number v = true.
Proof.
  unfold fetchSpx.
  destruct (2 <=? _); [|now exists VNull].
  destruct (nth_error _ 6) as [field|]; [|now exists VNull].
  destruct (Number_finite field) as [q|]; eauto.
Qed.

Lemma fetchSp500Market_shape (f : fetched) (s : value) :
  fetchSp500Market js_trim Number_finite f = Ok s ->
  exists price,
    s = VObj [("price", price); ("marketCap", VNull); ("marketCapProxy", VStr "SPY")]
    /\ null_or_number price = true.
Proof.
  unfold fetchSp500Market. intros H. inversion H. eexists. split; [reflexivity|].
  destruct f as [|res]; [reflexivity|].
  destruct (fetchSpx_resolved res) as (v & -> & Hv). exact Hv.
Qed.

Lemma step_boot_idle (ev : event) :
  base_not_fetched ev = true -> step js_trim Number_finite boot ev = boot.
Proof.
  destruct ev as [f now| |btc gold spx now]; simpl; try reflexivity.
  unfold refreshBaseData. now destruct (fetchJson f).
Qed.

(** Until a base fetch has succeeded the cache is the initial one. *)
Lemma step_keeps_unfetched (s : server) (ev : event) :
  (CACHE s = CACHE0 \/ exists t, dataUpdatedAt (CACHE s) = Some t) ->
  CACHE (step js_trim Number_finite s ev) = CACHE0
  \/ exists t, dataUpdatedAt (CACHE (step js_trim Number_finite s ev)) = Some t.
Proof.
  intros Hinv. destruct ev as [f now| |btc gold spx now]; simpl.
  - unfold refreshBaseData. destruct (fetchJson f); [right; now eexists|exact Hinv].
  - now destruct (refreshMarkets_start (CACHE s)).
  - destruct (pending s); [exact Hinv|]. simpl.
    destruct (settle_cases js_trim Number_finite btc gold spx now (CACHE s))
      as [->|(b & g & q & d & _ & Ha & ->)]; [exact Hinv|].
    simpl. destruct Hinv as [H0|Ht]; [|now right].
    rewrite H0 in Ha. discriminate.
Qed.

(** X4.  Until a base fetch has succeeded nothing happens at all: however
    many base fetches fail and however often the market timer fires, the
    server stays in its initial state, with an empty cache and no
    [refreshMarkets] call waiting on the network. *)
Theorem scheduler_idle_until_first_base (evs : list event) :
  forallb base_not_fetched evs = true ->
  run js_trim Number_finite evs boot = boot.
Proof.
  induction evs as [|ev evs IH]; simpl; [reflexivity|].
  intros Hall. apply andb_true_iff in Hall as [Hev Hall].
  unfold run in *. simpl. rewrite (step_boot_idle ev Hev). now apply IH.
Qed.

(** X5.  Whatever has happened since the process started, either the
    cache is still the initial one, or [dataUpdatedAt] is set: no
    document and no [marketsUpdatedAt] is ever served without a
    [dataUpdatedAt]. *)
Theorem timestamps_follow_first_base (evs : list event) :
  CACHE (run js_trim Number_finite evs boot) = CACHE0
  \/ exists t, dataUpdatedAt (CACHE (run js_trim Number_finite evs boot)) = Some t.
Proof.
  assert (Hgen : forall s,
             (CACHE s = CACHE0 \/ exists t, dataUpdatedAt (CACHE s) = Some t) ->
             CACHE (run js_trim Number_finite evs s) = CACHE0
             \/ exists t, dataUpdatedAt (CACHE (run js_trim Number_finite evs s)) = Some t).
  { induction evs as [|ev evs' IH]; intros s Hinv; [exact Hinv|].
    unfold run in *. simpl. apply IH. now apply step_keeps_unfetched. }
  apply Hgen. now left.
Qed.

(** X6.  A market refresh that is waiting on its fetches while a base
    refresh replaces the document writes its quotes into the new
    document: the result carries the new payload's fields, the base
    refresh's [dataUpdatedAt] and the market refresh's
    [marketsUpdatedAt]. *)
Theorem pending_refresh_merges_into_new_document
        (s : server) (f btc gold spx : fetched) (t1 t2 : string)
        (props : list (string * value)) (b g q : value) :
  ready (CACHE s) = true ->
  fetchJson f = Ok (VObj props) ->
  fetchBtcMarket btc = Ok b ->
  fetchGoldMarket gold = Ok g ->
  fetchSp500Market js_trim Number_finite spx = Ok q ->
  run js_trim Number_finite
      [MarketsFired; BaseSettled f t1; MarketsSettled btc gold spx t2] s =
  {| CACHE := {| data := VObj (assoc_set "markets" (quotes b g q) props);
                 dataUpdatedAt := Some t1;
                 marketsUpdatedAt := Some t2 |};
     pending := pending s |}.
Proof.
  unfold ready. intros Hr Hf Hb Hg Hq.
  unfold run. simpl. unfold refreshMarkets_start. rewrite Hr. simpl.
  unfold refreshMarkets_settle, refreshBaseData. rewrite Hf, Hb, Hg, Hq. reflexivity.
Qed.

(** X7.  When the upstream document is a JSON primitive ([true], a
    number, a string), the assignment of [markets] throws inside
    [refreshMarkets] and is swallowed: no market refresh changes the
    cache, whatever the providers answer, until a base refresh stores an
    object. *)
Theorem primitive_document_blocks_markets
        (f btc gold spx : fetched) (payload : value) (t1 t2 : string) (C : cache) :
  fetchJson f = Ok payload ->
  primitive payload = true ->
  refreshMarkets_settle js_trim Number_finite btc gold spx t2 (refreshBaseData f t1 C)
  = refreshBaseData f t1 C
  /\ refreshMarkets js_trim Number_finite btc gold spx t2 (refreshBaseData f t1 C)
     = refreshBaseData f t1 C.
Proof.
  intros Hf Hp. rewrite (refreshBaseData_success f t1 C Hf).
  assert (Hs : forall C', data C' = payload ->
                          refreshMarkets_settle js_trim Number_finite btc gold spx t2 C' = C').
  { intros C' Hd. unfold refreshMarkets_settle.
    destruct (Promise_all _ _ _) as [[[x y] z]|e]; [|reflexivity].
    rewrite Hd. now destruct payload. }
  split; [now apply Hs|].
  unfold refreshMarkets. destruct (refreshMarkets_start _); [now apply Hs|reflexivity].
Qed.

(** X8.  A body that is the JSON value [null], from the btc or from the
    gold provider, abandons the tick like a failed fetch: reading a
    property of it throws, and the cache is left as it was. *)
Theorem null_quote_body_abandons_tick
        (btc gold spx : fetched) (now : string) (C : cache) :
  fetchJson btc = Ok VNull \/ fetchJson gold = Ok VNull ->
  refreshMarkets_settle js_trim Number_finite btc gold spx now C = C.
Proof.
  intros Hnull. unfold refreshMarkets_settle.
  assert (Hall : exists e, Promise_all (fetchBtcMarket btc) (fetchGoldMarket gold)
                                       (fetchSp500Market js_trim Number_finite spx) = Throw e).
  { destruct Hnull as [Hb|Hg].
    - apply Promise_all_rejects_left with (e := TypeErr).
      unfold fetchBtcMarket. now rewrite Hb.
    - apply Promise_all_rejects_middle with (e := TypeErr).
      unfold fetchGoldMarket. now rewrite Hg. }
  destruct Hall as [e ->]. reflexivity.
Qed.

(** X9.  Whenever a market refresh changes the cache, the [markets] it
    leaves has exactly the three quotes, in the fixed shape: btc with
    [price] and [marketCap], gold with [marketCap] null and
    [marketCapEstimate] true, sp500 with [marketCap] null and
    [marketCapProxy] SPY; the btc and gold figures are [null] or truthy
    (never [undefined], [0] or the empty string), the sp500 price is
    [null] or a number. *)
Theorem merged_markets_are_normalised
        (btc gold spx : fetched) (now : string) (C : cache) :
  refreshMarkets_settle js_trim Number_finite btc gold spx now C = C
  \/ exists pb cb pg ps,
       get_prop "markets"
                (data (refreshMarkets_settle js_trim Number_finite btc gold spx now C))
       = Ok (quotes (VObj [("price", pb); ("marketCap", cb)])
                    (VObj [("price", pg); ("marketCap", VNull);
                           ("marketCapEstimate", VBool true)])
                    (VObj [("price", ps); ("marketCap", VNull);
                           ("marketCapProxy", VStr "SPY")]))
       /\ null_or_truthy pb = true /\ null_or_truthy cb = true
       /\ null_or_truthy pg = true /\ null_or_number ps = true.
Proof.
  destruct (settle_cases js_trim Number_finite btc gold spx now C)
    as [Hsame|(b & g & q & d & Hall & Ha & Hset)]; [now left|right].
  apply Promise_all_fulfilled in Hall as (Hb & Hg & Hq).
  destruct (fetchBtcMarket_shape btc Hb) as (pb & cb & -> & Hpb & Hcb).
  destruct (fetchGoldMarket_shape gold Hg) as (pg & -> & Hpg).
  destruct (@fetchSp500Market_shape spx _ Hq) as (ps & -> & Hps).
  exists pb, cb, pg, ps. rewrite Hset. simpl.
  split; [|now repeat split].
  eapply get_prop_assign_markets_same. exact Ha.
Qed.


(** X11.  Once the stooq request is answered, [fetchSpx] fulfils whatever
    the status and the body: with [null] or a number.  A body of one line
    (a header alone, an error page) gives [null], and so does a second
    line with fewer than seven fields. *)
Theorem fetchSpx_reads_any_body (res : http_response) :
  (exists v, fetchSpx js_trim Number_finite (Resolved res) = Ok v
             /\ null_or_number v = true)
  /\ (count_char newline (js_trim (text_body res)) = 0 ->
      fetchSpx js_trim Number_finite (Resolved res) = Ok VNull)
  /\ (count_char comma
                 (nth 1 (split_on newline (js_trim (text_body res))) EmptyString) < 6 ->
      fetchSpx js_trim Number_finite (Resolved res) = Ok VNull).
Proof.
  split; [apply fetchSpx_resolved|]. split.
  - intros H0. unfold fetchSpx. now rewrite length_split_on, H0.
  - intros Hlt. unfold fetchSpx.
    destruct (2 <=? _); [|reflexivity].
    assert (Hnone : nth_error
                      (split_on comma
                         (nth 1 (split_on newline (js_trim (text_body res))) EmptyString)) 6
                    = None).
    { apply nth_error_None. rewrite length_split_on. lia. }
    now rewrite Hnone.
Qed.

End FetcherFacts.

Lemma scheduler_idle_until_first_base_witness :
  run (fun x => x) (fun _ => None)
      [MarketsFired;
       BaseSettled Rejected "t1";
       MarketsSettled (ok_json (VObj [])) (ok_json (VObj [])) Rejected "t2";
       BaseSettled (Resolved {| status := 404; json_body := Some (VObj []); text_body := "" |}) "t3";
       MarketsFired]
      boot
  = boot.
Proof.
  exact (scheduler_idle_until_first_base (fun x => x) (fun _ => None)
           [MarketsFired;
            BaseSettled Rejected "t1";
            MarketsSettled (ok_json (VObj [])) (ok_json (VObj [])) Rejected "t2";
            BaseSettled (Resolved {| status := 404; json_body := Some (VObj []);
                                     text_body := "" |}) "t3";
            MarketsFired]
           eq_refl).
Defined.

Lemma pending_refresh_merges_witness :
  let s := {| CACHE := {| data := VObj [("score", VNum (50 # 1))];
                          dataUpdatedAt := Some "t0"; marketsUpdatedAt := None |};
              pending := 0 |} in
  let gold := VObj [("price", VNum (2300 # 1)); ("marketCap", VNull);
                    ("marketCapEstimate", VBool true)] in
  let btc := VObj [("price", VNull); ("marketCap", VNull)] in
  let spx := VObj [("price", VNull); ("marketCap", VNull); ("marketCapProxy", VStr "SPY")] in
  run (fun x => x) (fun _ => None)
      [MarketsFired;
       BaseSettled (ok_json (VObj [("score", VNum (61 # 1))])) "t1";
       MarketsSettled (ok_json (VObj [])) (ok_json (VObj [("price", VNum (2300 # 1))]))
                      Rejected "t2"] s
  = {| CACHE := {| data := VObj [("score", VNum (61 # 1)); ("markets", quotes btc gold spx)];
                   dataUpdatedAt := Some "t1";
                   marketsUpdatedAt := Some "t2" |};
       pending := 0 |}.
Proof.
  exact (@pending_refresh_merges_into_new_document (fun x => x) (fun _ => None)
           {| CACHE := {| data := VObj [("score", VNum (50 # 1))];
                          dataUpdatedAt := Some "t0"; marketsUpdatedAt := None |};
              pending := 0 |}
           (ok_json (VObj [("score", VNum (61 # 1))]))
           (ok_json (VObj [])) (ok_json (VObj [("price", VNum (2300 # 1))])) Rejected
           "t1" "t2"
           [("score", VNum (61 # 1))]
           (VObj [("price", VNull); ("marketCap", VNull)])
           (VObj [("price", VNum (2300 # 1)); ("marketCap", VNull);
                  ("marketCapEstimate", VBool true)])
           (VObj [("price", VNull); ("marketCap", VNull); ("marketCapProxy", VStr "SPY")])
           eq_refl eq_refl eq_refl eq_refl eq_refl).
Defined.

Lemma primitive_document_blocks_markets_witness :
  let C := refreshBaseData (ok_json (VStr "maintenance")) "t1" CACHE0 in
  ready C = true
  /\ refreshMarkets (fun x => x) (fun _ => None)
                    (ok_json (VObj [])) (ok_json (VObj [])) Rejected "t2" C = C.
Proof.
  split; [reflexivity|].
  exact (proj2 (primitive_document_blocks_markets (fun x => x) (fun _ => None)
                  (ok_json (VStr "maintenance"))
                  (ok_json (VObj [])) (ok_json (VObj [])) Rejected
                  "t1" "t2" CACHE0 eq_refl eq_refl)).
Defined.

Lemma null_quote_body_abandons_tick_witness :
  let C := {| data := VObj [("score", VNum (50 # 1))];
              dataUpdatedAt := Some "t0"; marketsUpdatedAt := None |} in
  refreshMarkets_settle (fun x => x) (fun _ => None)
                        (ok_json VNull) (ok_json (VObj [("price", VNum (2300 # 1))]))
                        Rejected "t1" C = C.
Proof.
  exact (null_quote_body_abandons_tick (fun x => x) (fun _ => None)
           (ok_json VNull) (ok_json (VObj [("price", VNum (2300 # 1))])) Rejected "t1"
           {| data := VObj [("score", VNum (50 # 1))];
              dataUpdatedAt := Some "t0"; marketsUpdatedAt := None |}
           (or_introl eq_refl)).
Defined.


Lemma fetchSpx_reads_any_body_witness :
  fetchSpx (fun x => x) (fun _ => None)
           (Resolved {| status := 200; json_body := None;
                        text_body := "Symbol,Date,Time,Open,High,Low,Close,Volume" |})
  = Ok VNull.
Proof.
  exact (proj1 (proj2 (fetchSpx_reads_any_body (fun x => x) (fun _ => None)
                         {| status := 200; json_body := None;
                            text_body := "Symbol,Date,Time,Open,High,Low,Close,Volume" |}))
               eq_refl).
Defined.

(** * Further properties of the routes *)

Lemma assoc_get_served (k : string) (a b c : value) (l : list (string * value)) :
  String.eqb "signal" k = false ->
  String.eqb "dataUpdatedAt" k = false ->
  String.eqb "marketsUpdatedAt" k = false ->
  assoc_get k (assoc_set "marketsUpdatedAt" a
                 (assoc_set "dataUpdatedAt" b (assoc_set "signal" c l)))
  = assoc_get k l.
Proof. intros H1 H2 H3. now rewrite !assoc_get_set_other. Qed.

(** X12.  [GET /public/index] answers 503 exactly while the cache holds
    no document.  Otherwise it serves the document's own properties with
    [signal], [dataUpdatedAt] and [marketsUpdatedAt] set by the server:
    a property of one of these names in the upstream document is
    overridden, every other property is passed through unchanged, and
    the signal is computed from [score || 0]. *)
Theorem public_index_serves_document (signalFromScore : value -> value) (C : cache) :
  (ready C = false ->
   public_index signalFromScore C = Ok (json_error 503 "Index not ready"))
  /\ (ready C = true ->
      exists score served,
        get_prop "score" (data C) = Ok score
        /\ public_index signalFromScore C =
           Ok {| code := 200; content := Json (VObj served) |}
        /\ assoc_get "signal" served = Some (signalFromScore (js_or score (VNum 0)))
        /\ assoc_get "dataUpdatedAt" served = Some (opt_str (dataUpdatedAt C))
        /\ assoc_get "marketsUpdatedAt" served = Some (opt_str (marketsUpdatedAt C))
        /\ forall k, k <> "signal" -> k <> "dataUpdatedAt" -> k <> "marketsUpdatedAt" ->
                     assoc_get k served = assoc_get k (own_props (data C))).
Proof.
  unfold ready, public_index. split; intros Hr; rewrite Hr; simpl; [reflexivity|].
  destruct (get_prop_truthy "score" (data C) Hr) as [score Hs]. rewrite Hs. simpl.
  exists score. eexists. split; [reflexivity|]. split; [reflexivity|].
  split; [|split; [|split]].
  - rewrite !assoc_get_set_other by reflexivity. apply assoc_get_set_same.
  - rewrite assoc_get_set_other by reflexivity. apply assoc_get_set_same.
  - apply assoc_get_set_same.
  - intros k H1 H2 H3. apply assoc_get_served; apply String.eqb_neq; congruence.
Qed.

Lemma public_index_serves_document_witness :
  let C := {| data := VObj [("score", VNull);
                            ("signal", VStr "upstream says greed");
                            ("drivers", VStr "rates")];
              dataUpdatedAt := Some "t1";
              marketsUpdatedAt := None |} in
  exists served,
    public_index (fun _ => VStr "neutral") C = Ok {| code := 200; content := Json (VObj served) |}
    /\ assoc_get "signal" served = Some (VStr "neutral")
    /\ assoc_get "drivers" served = Some (VStr "rates")
    /\ assoc_get "marketsUpdatedAt" served = Some VNull.
Proof.
  intros C.
  destruct (proj2 (public_index_serves_document (fun _ => VStr "neutral") C) eq_refl)
    as (score & served & _ & Hrun & Hsig & _ & Hm & Hrest).
  exists served. split; [exact Hrun|]. split; [exact Hsig|]. split; [|exact Hm].
  exact (Hrest "drivers" ltac:(discriminate) ltac:(discriminate) ltac:(discriminate)).
Defined.

Section RouteFacts.

Variable hashKey : string -> string.
Variable signalFromScore : value -> value.
Variable whatChanged : value -> value.

(** X13.  On the four data routes the gate comes first: a request the
    gate rejects gets the gate's answer whatever the cache holds, and a
    request it admits while the cache holds no document gets 503
    [Index not ready] and changes nothing more. *)
Theorem data_routes_gate_then_readiness (C : cache) (req : request) (w w1 : world) :
  (forall r, requireKey hashKey req w = (Ok (Reject r), w1) ->
     get_v1_index hashKey signalFromScore whatChanged C req w = (Ok r, w1)
     /\ get_v1_history hashKey C req w = (Ok r, w1)
     /\ get_v1_markets hashKey C req w = (Ok r, w1)
     /\ get_v1_drivers hashKey whatChanged C req w = (Ok r, w1))
  /\ (forall apiKey, requireKey hashKey req w = (Ok (Proceed apiKey), w1) ->
        ready C = false ->
        get_v1_index hashKey signalFromScore whatChanged C req w
        = (Ok (json_error 503 "Index not ready"), w1)
        /\ get_v1_history hashKey C req w = (Ok (json_error 503 "Index not ready"), w1)
        /\ get_v1_markets hashKey C req w = (Ok (json_error 503 "Index not ready"), w1)
        /\ get_v1_drivers hashKey whatChanged C req w
           = (Ok (json_error 503 "Index not ready"), w1)).
Proof.
  split.
  - intros r Hrej. repeat split; now apply behind_reject.
  - unfold ready. intros apiKey Hgo Hr.
    unfold get_v1_index, get_v1_history, get_v1_markets, get_v1_drivers.
    rewrite !behind_proceed with (w' := w1) (apiKey := apiKey) by exact Hgo.
    unfold v1_index, v1_history, v1_markets, v1_drivers. rewrite Hr. now repeat split.
Qed.

(** X14.  After a market refresh went through on an object document, an
    admitted [GET /v1/markets] serves exactly the three quotes of that
    refresh under [markets], with [version] v1. *)
Theorem v1_markets_serves_merged_quotes
        (js_trim : string -> string) (Number_finite : string -> option Q)
        (btc gold spx : fetched) (now : string) (C : cache)
        (props : list (string * value)) (b g q : value)
        (req : request) (apiKey : Key.record) (w w1 : world) :
  data C = VObj props ->
  fetchBtcMarket btc = Ok b ->
  fetchGoldMarket gold = Ok g ->
  fetchSp500Market js_trim Number_finite spx = Ok q ->
  requireKey hashKey req w = (Ok (Proceed apiKey), w1) ->
  get_v1_markets hashKey (refreshMarkets_settle js_trim Number_finite btc gold spx now C) req w
  = (Ok {| code := 200;
           content := Json (VObj [("version", VStr "v1"); ("markets", quotes b g q)]) |},
     w1).
Proof.
  intros Hd Hb Hg Hq Hgo.
  unfold get_v1_markets. rewrite behind_proceed with (w' := w1) (apiKey := apiKey) by exact Hgo.
  unfold refreshMarkets_settle. rewrite Hb, Hg, Hq, Hd. simpl.
  unfold v1_markets, bind, lift, ret. simpl.
  now rewrite assoc_get_set_same.
Qed.

Lemma is_string_eq (s : string) (v : value) : is_string s v = true -> v = VStr s.
Proof.
  destruct v; simpl; try discriminate.
  intros H. apply String.eqb_eq in H. now subst.
Qed.

(** X15.  Whenever [GET /v1/key/verify] answers 200, the key it reports
    is a record of the store found under the hash of the presented
    token, and the reported status is [active]: no other status is ever
    shown. *)
Theorem key_verify_reports_active_only (req : request) (w w' : world) (resp : response) :
  get_v1_key_verify hashKey req w = (Ok resp, w') ->
  code resp = 200 ->
  exists t r,
    token_of req = Some t
    /\ lookupByHash (hashKey t) (keys w) = Some r
    /\ content resp = Json (VObj [("status", VStr "active");
                                  ("plan", Key.plan r);
                                  ("email", Key.email r)]).
Proof.
  unfold get_v1_key_verify. intros Hrun Hcode.
  destruct (no_token (token_of req)) eqn:Hn.
  - rewrite behind_reject with (w' := w) (r := json_error 401 "Missing API key") in Hrun
      by now apply requireKey_no_token.
    inversion Hrun; subst. discriminate.
  - destruct (token_of req) as [t|] eqn:Ht; [|discriminate].
    pose proof (requireKey_token hashKey req w Ht Hn) as Hgate.
    destruct (lookupByHash (hashKey t) (keys w)) as [r|] eqn:Hl.
    + destruct (is_string "active" (Key.status r)) eqn:Hs.
      * erewrite behind_proceed in Hrun by exact Hgate.
        unfold key_verify, ret in Hrun. inversion Hrun; subst.
        exists t, r. split; [reflexivity|]. split; [exact Hl|].
        simpl. now rewrite (is_string_eq _ _ Hs).
      * erewrite behind_reject in Hrun by exact Hgate.
        inversion Hrun; subst. discriminate.
    + erewrite behind_reject in Hrun by exact Hgate.
      inversion Hrun; subst. discriminate.
Qed.

End RouteFacts.

Lemma data_routes_gate_then_readiness_witness :
  get_v1_markets sample_hash CACHE0 (with_authorization "Basic dXNlcjpwdw==") sample_store
  = (Ok (json_error 401 "Missing API key"), sample_store)
  /\ get_v1_markets sample_hash CACHE0 (with_authorization (bearer "ici_live_abc")) sample_store
     = (Ok (json_error 503 "Index not ready"),
        logged [Call_hashKey "ici_live_abc"; Call_getKeyByHash "sha256:ici_live_abc"]
               sample_store).
Proof.
  split.
  - destruct (proj1 (data_routes_gate_then_readiness sample_hash
                       (fun _ => VNull) (fun _ => VNull) CACHE0
                       (with_authorization "Basic dXNlcjpwdw==") sample_store sample_store)
                    (json_error 401 "Missing API key") eq_refl)
      as (_ & _ & Hm & _).
    exact Hm.
  - destruct (proj2 (data_routes_gate_then_readiness sample_hash
                       (fun _ => VNull) (fun _ => VNull) CACHE0
                       (with_authorization (bearer "ici_live_abc")) sample_store
                       (logged [Call_hashKey "ici_live_abc";
                                Call_getKeyByHash "sha256:ici_live_abc"] sample_store))
                    sample_key eq_refl eq_refl)
      as (_ & _ & Hm & _).
    exact Hm.
Defined.

Lemma v1_markets_serves_merged_quotes_witness :
  let C := {| data := VObj [("score", VNum (50 # 1))];
              dataUpdatedAt := Some "t0"; marketsUpdatedAt := None |} in
  let C' := refreshMarkets_settle (fun x => x) (fun _ => None)
              (ok_json (VObj [])) (ok_json (VObj [("price", VNum (2300 # 1))])) Rejected
              "t1" C in
  get_v1_markets sample_hash C' (with_authorization (bearer "ici_live_abc")) sample_store
  = (Ok {| code := 200;
           content :=
             Json (VObj [("version", VStr "v1");
                         ("markets",
                          quotes (VObj [("price", VNull); ("marketCap", VNull)])
                                 (VObj [("price", VNum (2300 # 1)); ("marketCap", VNull);
                                        ("marketCapEstimate", VBool true)])
                                 (VObj [("price", VNull); ("marketCap", VNull);
                                        ("marketCapProxy", VStr "SPY")]))]) |},
     logged [Call_hashKey "ici_live_abc"; Call_getKeyByHash "sha256:ici_live_abc"]
            sample_store).
Proof.
  exact (@v1_markets_serves_merged_quotes sample_hash (fun x => x) (fun _ => None)
           (ok_json (VObj [])) (ok_json (VObj [("price", VNum (2300 # 1))])) Rejected "t1"
           {| data := VObj [("score", VNum (50 # 1))];
              dataUpdatedAt := Some "t0"; marketsUpdatedAt := None |}
           [("score", VNum (50 # 1))]
           (VObj [("price", VNull); ("marketCap", VNull)])
           (VObj [("price", VNum (2300 # 1)); ("marketCap", VNull);
                  ("marketCapEstimate", VBool true)])
           (VObj [("price", VNull); ("marketCap", VNull); ("marketCapProxy", VStr "SPY")])
           (with_authorization (bearer "ici_live_abc")) sample_key sample_store
           (logged [Call_hashKey "ici_live_abc"; Call_getKeyByHash "sha256:ici_live_abc"]
                   sample_store)
           eq_refl eq_refl eq_refl eq_refl eq_refl).
Defined.

Lemma key_verify_reports_active_only_witness :
  exists t r,
    token_of (with_authorization (bearer "ici_live_abc")) = Some t
    /\ lookupByHash (sample_hash t) (keys sample_store) = Some r
    /\ Json (VObj [("status", Key.status sample_key);
                   ("plan", Key.plan sample_key);
                   ("email", Key.email sample_key)])
       = Json (VObj [("status", VStr "active"); ("plan", Key.plan r); ("email", Key.email r)]).
Proof.
  exact (@key_verify_reports_active_only sample_hash
           (with_authorization (bearer "ici_live_abc")) sample_store
           (logged [Call_hashKey "ici_live_abc"; Call_getKeyByHash "sha256:ici_live_abc"]
                   sample_store)
           {| code := 200;
              content := Json (VObj [("status", Key.status sample_key);
                                     ("plan", Key.plan sample_key);
                                     ("email", Key.email sample_key)]) |}
           eq_refl eq_refl).
Defined.

(** * The life of a key *)

Lemma token_of_bearer (t : string) : token_of (with_authorization (bearer t)) = Some t.
Proof.
  assert (Hp : prefix "Bearer " (bearer t) = true)
    by (apply prefix_correct; simpl; now destruct t).
  unfold token_of, with_authorization. cbn [authorization].
  now rewrite Hp.
Qed.

Lemma lookupByHash_app_new (h : string) (ks : list Key.record) (r : Key.record) :
  lookupByHash h ks = None ->
  Key.key_hash r = h ->
  lookupByHash h (ks ++ [r]) = Some r.
Proof.
  unfold lookupByHash. intros Hnone Hh.
  induction ks as [|k ks IH]; simpl in *.
  - now rewrite Hh, String.eqb_refl.
  - destruct (String.eqb (Key.key_hash k) h); [discriminate|]. now apply IH.
Qed.

Lemma lookupByHash_map (h : string) (f : Key.record -> Key.record) (ks : list Key.record) :
  (forall r, Key.key_hash (f r) = Key.key_hash r) ->
  lookupByHash h (map f ks) = option_map f (lookupByHash h ks).
Proof.
  unfold lookupByHash. intros Hf.
  induction ks as [|k ks IH]; simpl; [reflexivity|].
  rewrite Hf. now destruct (String.eqb (Key.key_hash k) h).
Qed.

Lemma same_id_refl (s : string) : same_id (VStr s) (VStr s) = true.
Proof. simpl. apply String.eqb_refl. Qed.

Section KeyLife.

Variable hashKey : string -> string.
Variable fresh_id : list Key.record -> value.
Variable constructEvent : option string -> value -> value -> string + value.
Variable env : environment.

(** The world a verified [customer.subscription.deleted] event leaves. *)
Lemma webhook_cancellation_world
      (req : request) (secret : string) (mail : fetched) (w : world)
      (event event_data subscription customer sub_id : value) :
  constructEvent (rawBody req) (stripe_signature req) (STRIPE_WEBHOOK_SECRET env)
  = inr event ->
  get_prop "type" event = Ok (VStr "customer.subscription.deleted") ->
  get_prop "data" event = Ok event_data ->
  get_prop "object" event_data = Ok subscription ->
  get_prop "customer" subscription = Ok customer ->
  get_prop "id" subscription = Ok sub_id ->
  snd (webhook hashKey fresh_id constructEvent env req secret mail w) =
  {| keys := map (fun r =>
                    if same_id (Key.stripe_customer_id r) customer
                       && same_id (Key.stripe_subscription_id r) sub_id
                    then Key.with_status (VStr "inactive") r else r) (keys w);
     alerts := alerts w;
     calls := calls w ++ [Call_updateKeySubscription customer sub_id (VStr "inactive")] |}.
Proof.
  intros Hev Ht Hd Ho Hcu Hid.
  unfold webhook. rewrite Hev.
  unfold bind, lift, updateKeySubscription, log, ret, bind.
  rewrite Ht. simpl. rewrite Hd, Ho, Hcu, Hid. reflexivity.
Qed.

(** X16.  A key minted by a verified checkout authenticates: presented
    as [Bearer <key>] it passes the gate, which attaches the record just
    stored, with plan [pro] and status [active], provided the key is not
    empty and no earlier record has the same hash. *)
Theorem minted_key_authenticates
        (req : request) (secret : string) (mail : fetched) (w : world)
        (event event_data session customer_email customer subscription : value) :
  constructEvent (rawBody req) (stripe_signature req) (STRIPE_WEBHOOK_SECRET env)
  = inr event ->
  get_prop "type" event = Ok (VStr "checkout.session.completed") ->
  get_prop "data" event = Ok event_data ->
  get_prop "object" event_data = Ok session ->
  get_prop "customer_email" session = Ok customer_email ->
  get_prop "customer" session = Ok customer ->
  get_prop "subscription" session = Ok subscription ->
  secret <> "" ->
  lookupByHash (hashKey secret) (keys w) = None ->
  let w' := snd (webhook hashKey fresh_id constructEvent env req secret mail w) in
  exists r,
    requireKey hashKey (with_authorization (bearer secret)) w' =
    (Ok (Proceed r), logged [Call_hashKey secret; Call_getKeyByHash (hashKey secret)] w')
    /\ Key.key_hash r = hashKey secret
    /\ Key.plan r = VStr "pro"
    /\ Key.status r = VStr "active"
    /\ Key.email r = js_or customer_email VNull.
Proof.
  intros Hev Ht Hd Ho Hce Hcu Hsu Hne Hfresh w'.
  pose proof (webhook_checkout hashKey fresh_id constructEvent env req secret mail w
                Hev Ht Hd Ho Hce Hcu Hsu) as Hrun.
  cbv zeta in Hrun.
  assert (Hkeys : keys w' =
                  keys w ++ [Key.with_id (fresh_id (keys w))
                               {| Key.id := VUndefined;
                                  Key.key_hash := hashKey secret;
                                  Key.plan := VStr "pro";
                                  Key.status := VStr "active";
                                  Key.email := js_or customer_email VNull;
                                  Key.stripe_customer_id := js_or customer VNull;
                                  Key.stripe_subscription_id := js_or subscription VNull |}])
    by (subst w'; now rewrite Hrun).
  eexists. split.
  - rewrite (requireKey_token hashKey (with_authorization (bearer secret)) w'
               (token_of_bearer secret) (no_token_some Hne)).
    rewrite Hkeys, (lookupByHash_app_new _ _ Hfresh) by reflexivity.
    reflexivity.
  - now repeat split.
Qed.

(** X17.  After a verified [customer.subscription.deleted] event, a key
    whose record carries that customer and that subscription is answered
    403; an active key of another subscription still passes the gate. *)
Theorem cancelled_subscription_is_locked_out
        (req : request) (secret : string) (mail : fetched) (w : world)
        (event event_data subscription : value) (c sid t : string) (r : Key.record) :
  constructEvent (rawBody req) (stripe_signature req) (STRIPE_WEBHOOK_SECRET env)
  = inr event ->
  get_prop "type" event = Ok (VStr "customer.subscription.deleted") ->
  get_prop "data" event = Ok event_data ->
  get_prop "object" event_data = Ok subscription ->
  get_prop "customer" subscription = Ok (VStr c) ->
  get_prop "id" subscription = Ok (VStr sid) ->
  t <> "" ->
  lookupByHash (hashKey t) (keys w) = Some r ->
  let w' := snd (webhook hashKey fresh_id constructEvent env req secret mail w) in
  let asked := logged [Call_hashKey t; Call_getKeyByHash (hashKey t)] w' in
  (Key.stripe_customer_id r = VStr c -> Key.stripe_subscription_id r = VStr sid ->
   requireKey hashKey (with_authorization (bearer t)) w' =
   (Ok (Reject (json_error 403 "Invalid API key")), asked))
  /\ (Key.status r = VStr "active" ->
      same_id (Key.stripe_subscription_id r) (VStr sid) = false ->
      requireKey hashKey (with_authorization (bearer t)) w' = (Ok (Proceed r), asked)).
Proof.
  intros Hev Ht Hd Ho Hcu Hid Hne Hl w' asked.
  pose proof (webhook_cancellation_world req secret mail w Hev Ht Hd Ho Hcu Hid) as Hw.
  fold w' in Hw.
  pose proof (requireKey_token hashKey (with_authorization (bearer t)) w'
                (token_of_bearer t) (no_token_some Hne)) as Hgate.
  fold asked in Hgate.
  assert (Hkeys : lookupByHash (hashKey t) (keys w') =
                  Some (if same_id (Key.stripe_customer_id r) (VStr c)
                           && same_id (Key.stripe_subscription_id r) (VStr sid)
                        then Key.with_status (VStr "inactive") r else r)).
  { rewrite Hw. simpl. rewrite lookupByHash_map, Hl; [reflexivity|].
    intros k. now destruct (_ && _). }
  rewrite Hkeys in Hgate. split.
  - intros Hc Hs. rewrite Hc, Hs, !same_id_refl in Hgate. exact Hgate.
  - intros Hact Hother. rewrite Hother, andb_false_r in Hgate.
    now rewrite (is_string_true Hact) in Hgate.
Qed.

End KeyLife.

Lemma minted_key_authenticates_witness :
  let w' := snd (webhook sample_hash sample_fresh_id (sample_constructEvent sample_checkout)
                         sample_env sample_webhook_request "ici_live_new" Rejected
                         empty_world) in
  exists r,
    requireKey sample_hash (with_authorization (bearer "ici_live_new")) w' =
    (Ok (Proceed r),
     logged [Call_hashKey "ici_live_new"; Call_getKeyByHash "sha256:ici_live_new"] w')
    /\ Key.status r = VStr "active"
    /\ Key.email r = VStr "a@b.com".
Proof.
  intros w'.
  destruct (@minted_key_authenticates sample_hash sample_fresh_id
              (sample_constructEvent sample_checkout) sample_env
              sample_webhook_request "ici_live_new" Rejected empty_world
              sample_checkout
              (VObj [("object", VObj [("customer_email", VStr "a@b.com");
                                      ("customer", VStr "cus_1");
                                      ("subscription", VStr "sub_1")])])
              (VObj [("customer_email", VStr "a@b.com");
                     ("customer", VStr "cus_1");
                     ("subscription", VStr "sub_1")])
              (VStr "a@b.com") (VStr "cus_1") (VStr "sub_1")
              eq_refl eq_refl eq_refl eq_refl eq_refl eq_refl eq_refl
              ltac:(discriminate) eq_refl)
    as (r & Hgate & _ & _ & Hst & Hem).
  exists r. split; [exact Hgate|]. split; [exact Hst | exact Hem].
Defined.

Lemma cancelled_subscription_witness :
  let w' := snd (webhook sample_hash sample_fresh_id
                         (sample_constructEvent sample_cancellation)
                         sample_env sample_webhook_request "unused" Rejected sample_store) in
  requireKey sample_hash (with_authorization (bearer "ici_live_abc")) sample_store
  = (Ok (Proceed sample_key),
     logged [Call_hashKey "ici_live_abc"; Call_getKeyByHash "sha256:ici_live_abc"]
            sample_store)
  /\ requireKey sample_hash (with_authorization (bearer "ici_live_abc")) w'
     = (Ok (Reject (json_error 403 "Invalid API key")),
        logged [Call_hashKey "ici_live_abc"; Call_getKeyByHash "sha256:ici_live_abc"] w').
Proof.
  intros w'. split; [reflexivity|].
  exact (proj1 (@cancelled_subscription_is_locked_out sample_hash sample_fresh_id
                  (sample_constructEvent sample_cancellation) sample_env
                  sample_webhook_request "unused" Rejected sample_store
                  sample_cancellation
                  (VObj [("object", VObj [("id", VStr "sub_9"); ("customer", VStr "cus_9")])])
                  (VObj [("id", VStr "sub_9"); ("customer", VStr "cus_9")])
                  "cus_9" "sub_9" "ici_live_abc" sample_key
                  eq_refl eq_refl eq_refl eq_refl eq_refl eq_refl
                  ltac:(discriminate) eq_refl)
               eq_refl eq_refl).
Defined.

(** * What the write routes never do *)

(** X18.  [POST /v1/alerts/subscribe] never throws, never touches the
    key store, and never removes or rewrites an alert: it appends one
    alert when it answers 200, and none when it answers 400, 401 or 403. *)
Theorem alerts_subscribe_only_adds (hashKey : string -> string) (req : request) (w : world) :
  exists resp added,
    fst (post_alerts_subscribe hashKey req w) = Ok resp
    /\ keys (snd (post_alerts_subscribe hashKey req w)) = keys w
    /\ alerts (snd (post_alerts_subscribe hashKey req w)) = alerts w ++ added
    /\ ((code resp = 200 /\ exists a, added = [a])
        \/ (added = [] /\ (code resp = 400 \/ code resp = 401 \/ code resp = 403))).
Proof.
  unfold post_alerts_subscribe.
  assert (Hrej : forall r w1 c,
             requireKey hashKey req w = (Ok (Reject (json_error c r)), w1) ->
             keys w1 = keys w -> alerts w1 = alerts w ->
             c = 401 \/ c = 403 ->
             exists resp added,
               fst (behind (requireKey hashKey) alerts_subscribe req w) = Ok resp
               /\ keys (snd (behind (requireKey hashKey) alerts_subscribe req w)) = keys w
               /\ alerts (snd (behind (requireKey hashKey) alerts_subscribe req w))
                  = alerts w ++ added
               /\ ((code resp = 200 /\ exists a, added = [a])
                   \/ (added = [] /\ (code resp = 400 \/ code resp = 401 \/ code resp = 403)))).
  { intros r w1 c Hg Hk Ha Hc. erewrite behind_reject by exact Hg. simpl.
    exists (json_error c r), []. rewrite app_nil_r. repeat split; try assumption.
    right. split; [reflexivity|]. simpl. tauto. }
  destruct (no_token (token_of req)) eqn:Hn.
  - eapply Hrej; [now apply requireKey_no_token| | |]; auto.
  - destruct (token_of req) as [t|] eqn:Ht; [|discriminate].
    pose proof (requireKey_token hashKey req w Ht Hn) as Hgate.
    destruct (lookupByHash (hashKey t) (keys w)) as [r|];
      [destruct (is_string "active" (Key.status r))|];
      try (eapply Hrej; [exact Hgate| | |]; auto).
    erewrite behind_proceed by exact Hgate.
    destruct (get_prop_body "email" req) as [email He].
    destruct (get_prop_body "telegramChatId" req) as [chat Hc].
    unfold alerts_subscribe, bind, lift. rewrite He, Hc.
    destruct (negb (truthy email) && negb (truthy chat)); simpl.
    + exists (json_error 400 "Provide email or telegramChatId"), [].
      rewrite app_nil_r. repeat split. right. split; [reflexivity|]. simpl. tauto.
    + eexists. eexists. repeat split. left. split; [reflexivity|]. now eexists.
Qed.

(** X19.  Whatever arrives at [POST /v1/webhook], verified or not, well
    formed or not, and whatever the mailer answers: the alert table is
    untouched, and the key store loses no record and gains at most one. *)
Theorem webhook_never_removes_keys
        (hashKey : string -> string) (fresh_id : list Key.record -> value)
        (constructEvent : option string -> value -> value -> string + value)
        (env : environment)
        (req : request) (secret : string) (mail : fetched) (w : world) :
  alerts (snd (webhook hashKey fresh_id constructEvent env req secret mail w)) = alerts w
  /\ List.length (keys w)
     <= List.length (keys (snd (webhook hashKey fresh_id constructEvent env req secret mail w)))
     <= S (List.length (keys w)).
Proof.
  unfold webhook.
  destruct (constructEvent _ _ _) as [message|event]; simpl; [split; [reflexivity|lia]|].
  unfold bind, lift, generateKey, call_hashKey, insertKey, updateKeySubscription,
    fetch_post, log, ret, bind.
  repeat match goal with
         | |- context [match get_prop ?k ?v with _ => _ end] =>
             destruct (get_prop k v); simpl
         | |- context [if ?b then _ else _] => destruct b; simpl
         | |- context [match ?m with Rejected => _ | Resolved _ => _ end] =>
             destruct m; simpl
         end;
    simpl; rewrite ?length_map, ?length_app; simpl; split; try reflexivity; lia.
Qed.

(** X20.  [POST /v1/checkout] answers 500 [Missing Stripe price id]
    without calling Stripe when [STRIPE_PRICE_ID] is unset or empty.
    Otherwise it calls Stripe once, for a subscription with the body's
    e-mail; it answers 200 with the session's [url] when the call
    succeeds, and ends without an answer when the call fails. *)
Theorem checkout_outcomes
        (cenv : checkout_environment) (sessions_create : value -> result value)
        (req : request) :
  exists email,
    get_prop "email" (js_or (body req) (VObj [])) = Ok email
    /\ (env_unset (STRIPE_PRICE_ID cenv) = true ->
        checkout cenv sessions_create req =
        (Ok (json_error 500 "Missing Stripe price id"), []))
    /\ (env_unset (STRIPE_PRICE_ID cenv) = false ->
        snd (checkout cenv sessions_create req) = [checkout_params cenv email]
        /\ get_prop "mode" (checkout_params cenv email) = Ok (VStr "subscription")
        /\ get_prop "customer_email" (checkout_params cenv email) = Ok email
        /\ (forall e, sessions_create (checkout_params cenv email) = Throw e ->
                      fst (checkout cenv sessions_create req) = Throw e)
        /\ (forall session session_url,
               sessions_create (checkout_params cenv email) = Ok session ->
               get_prop "url" session = Ok session_url ->
               fst (checkout cenv sessions_create req) =
               Ok {| code := 200; content := Json (VObj [("url", session_url)]) |})).
Proof.
  destruct (get_prop_body "email" req) as [email He].
  exists email. split; [exact He|].
  unfold checkout. rewrite He. split; intros Hu; rewrite Hu; [reflexivity|].
  simpl. repeat split.
  - intros e ->. reflexivity.
  - intros session session_url -> Hurl. simpl. now rewrite Hurl.
Qed.

Lemma checkout_outcomes_witness :
  let cenv := {| STRIPE_PRICE_ID := Some ""; PUBLIC_BASE_URL := Some "https://ici.example" |} in
  let req := {| authorization := None; stripe_signature := VUndefined;
                body := VObj [("email", VStr "a@b.com")]; rawBody := None |} in
  checkout cenv (fun _ => Throw NetworkFailure) req =
  (Ok (json_error 500 "Missing Stripe price id"), []).
Proof.
  intros cenv req.
  destruct (checkout_outcomes cenv (fun _ => Throw NetworkFailure) req)
    as (email & _ & Hunset & _).
  exact (Hunset eq_refl).
Defined.

(** * Strings by code unit *)

(** A code point up to U+FFFF is one code unit, whatever its length in
    bytes; a code point above is its two surrogates.  So a document that
    is the string of the euro sign is served with the one property [0]. *)
Lemma code_units_follow_utf16 :
  code_units "ab" = ["a"; "b"]
  /\ code_units euro = [euro]
  /\ code_units grinning_face = [of_bytes [237; 160; 189]; of_bytes [237; 184; 128]]
  /\ get_prop "length" (VStr (euro ++ grinning_face)) = Ok (VNum (3 # 1))
  /\ own_props (VStr euro) = [("0", VStr euro)].
Proof. repeat split. Qed.
